(** * The Termius sync-cloud client: [termius/core/api.py]

    A shallow embedding of the API client (the request signer
    [TermiusAuth], [hash_password] and the class [API]) together with
    the properties its specification states about it.

    Conventions.
    - The interpreter is Python 3, which the package declares to
      support. Text that the client only passes on (emails, endpoints,
      header names and values, bodies) is a [string], a sequence of
      8-bit characters; the password, the one text the client encodes
      itself, is a [unicode], a sequence of code points.
    - Python objects that flow through the client (credentials, decoded
      JSON documents, request data) are values of [pyobj].
    - The client runs in a state-and-exception monad [M] over a [world]
      made of the client object itself, the requests put on the wire,
      the replies still to arrive and the records sent to the logger.
    - The Python builtins and the JSON decoder the client calls are the
      fields of the class [Runtime]; [cpython] is an instance. *)

From Stdlib Require Import ZArith List String Ascii Lia.
From Stdlib.Strings Require Import Byte.
From stdpp Require Import gmap strings pretty.

Set Warnings "-register-all".
Local Open Scope Z_scope.

(** ** [hashlib.sha256]

    SHA-256 as in FIPS 180-4, on 32-bit words kept in [Z]. *)
Module hashlib.

Definition wrap32 (x : Z) : Z := Z.land x 0xFFFFFFFF.

Definition add32 (x y : Z) : Z := wrap32 (x + y).

Definition rotr (n x : Z) : Z :=
  Z.lor (Z.shiftr x n) (wrap32 (Z.shiftl x (32 - n))).

Definition Ch (x y z : Z) : Z :=
  Z.lxor (Z.land x y) (Z.land (Z.lxor x 0xFFFFFFFF) z).

Definition Maj (x y z : Z) : Z :=
  Z.lxor (Z.lxor (Z.land x y) (Z.land x z)) (Z.land y z).

Definition Sigma0 (x : Z) : Z := Z.lxor (Z.lxor (rotr 2 x) (rotr 13 x)) (rotr 22 x).
Definition Sigma1 (x : Z) : Z := Z.lxor (Z.lxor (rotr 6 x) (rotr 11 x)) (rotr 25 x).
Definition sigma0 (x : Z) : Z := Z.lxor (Z.lxor (rotr 7 x) (rotr 18 x)) (Z.shiftr x 3).
Definition sigma1 (x : Z) : Z := Z.lxor (Z.lxor (rotr 17 x) (rotr 19 x)) (Z.shiftr x 10).

(** The constants are defined the way the standard derives them: the
    first 32 bits of the fractional parts of the cube roots (for [K]) and
    of the square roots (for [H0]) of the first primes. *)
Definition is_prime (p : Z) : bool :=
  forallb (λ d, negb (p mod d =? 0)) (map Z.of_nat (seq 2 (Z.to_nat p - 2))).

(** The first 64 primes: those below 312. *)
Definition primes : list Z :=
  filter (λ p, is_prime p = true) (map Z.of_nat (seq 2 310)).

(** The integer cube root of [n], by bisection between [lo] and [hi]. *)
Fixpoint bisect_cbrt (steps : nat) (lo hi n : Z) : Z :=
  match steps with
  | O => lo
  | S steps' =>
      let mid := (lo + hi) / 2 in
      if mid * mid * mid <=? n
      then bisect_cbrt steps' mid hi n
      else bisect_cbrt steps' lo mid n
  end.

Definition frac_cbrt (p : Z) : Z := wrap32 (bisect_cbrt 40 0 (2 ^ 36) (p * 2 ^ 96)).

Definition frac_sqrt (p : Z) : Z := wrap32 (Z.sqrt (p * 2 ^ 64)).

Definition K : list Z := map frac_cbrt primes.

(** The eight working variables, also the chaining value between blocks. *)
Record regs : Type :=
  Regs { ra : Z; rb : Z; rc : Z; rd : Z; re : Z; rf : Z; rg : Z; rh : Z }.

Definition H0 : regs :=
  Regs (frac_sqrt 2) (frac_sqrt 3) (frac_sqrt 5) (frac_sqrt 7)
       (frac_sqrt 11) (frac_sqrt 13) (frac_sqrt 17) (frac_sqrt 19).

(** Padding: the message, a [0x80] byte, zero bytes up to 56 modulo 64,
    then the bit length as a 64-bit big-endian integer. *)
Definition pad (msg : list byte) : list Z :=
  let n := Z.of_nat (length msg) in
  let bits := 8 * n in
  map (λ b, Z.of_N (Byte.to_N b)) msg ++ [0x80]
    ++ repeat 0 (Z.to_nat ((55 - n) mod 64))
    ++ map (λ i, Z.land (Z.shiftr bits (8 * i)) 0xFF) [7; 6; 5; 4; 3; 2; 1; 0].

(** The first [n] big-endian 32-bit words of a byte sequence. *)
Fixpoint words (n : nat) (bs : list Z) : list Z :=
  match n, bs with
  | S n', b0 :: b1 :: b2 :: b3 :: rest =>
      (Z.shiftl b0 24 + Z.shiftl b1 16 + Z.shiftl b2 8 + b3) :: words n' rest
  | _, _ => []
  end.

(** The message schedule: [n] more words after those of [w]. *)
Fixpoint extend (n : nat) (w : list Z) : list Z :=
  match n with
  | O => w
  | S n' =>
      let t := length w in
      let back (i : nat) := nth (t - i)%nat w 0 in
      extend n' (w ++ [wrap32 (sigma1 (back 2%nat) + back 7%nat
                               + sigma0 (back 15%nat) + back 16%nat)])
  end.

Definition round (s : regs) (kw : Z * Z) : regs :=
  let t1 := wrap32 (rh s + Sigma1 (re s) + Ch (re s) (rf s) (rg s) + kw.1 + kw.2) in
  let t2 := wrap32 (Sigma0 (ra s) + Maj (ra s) (rb s) (rc s)) in
  Regs (add32 t1 t2) (ra s) (rb s) (rc s) (add32 (rd s) t1) (re s) (rf s) (rg s).

Definition compress (h : regs) (block : list Z) : regs :=
  let s := fold_left round (combine K (extend 48 (words 16 block))) h in
  Regs (add32 (ra h) (ra s)) (add32 (rb h) (rb s))
       (add32 (rc h) (rc s)) (add32 (rd h) (rd s))
       (add32 (re h) (re s)) (add32 (rf h) (rf s))
       (add32 (rg h) (rg s)) (add32 (rh h) (rh s)).

(** At most [n] blocks of 64 bytes. *)
Fixpoint blocks (n : nat) (bs : list Z) : list (list Z) :=
  match n with
  | O => []
  | S n' =>
      match bs with
      | [] => []
      | _ => firstn 64 bs :: blocks n' (skipn 64 bs)
      end
  end.

Definition sha256 (msg : list byte) : regs :=
  let p := pad msg in fold_left compress (blocks (length p) p) H0.

Definition hexdigits : list ascii := list_ascii_of_string "0123456789abcdef".

Definition hexchar (x : Z) : ascii :=
  nth (Z.to_nat (Z.land x 15)) hexdigits "0"%char.

(** The eight hexadecimal digits of a word, most significant first, in
    front of [rest]. *)
Definition hex32 (x : Z) (rest : string) : string :=
  String (hexchar (Z.shiftr x 28)) (String (hexchar (Z.shiftr x 24))
  (String (hexchar (Z.shiftr x 20)) (String (hexchar (Z.shiftr x 16))
  (String (hexchar (Z.shiftr x 12)) (String (hexchar (Z.shiftr x 8))
  (String (hexchar (Z.shiftr x 4)) (String (hexchar x) rest))))))).

Definition hexdigest (s : regs) : string :=
  hex32 (ra s) (hex32 (rb s) (hex32 (rc s) (hex32 (rd s)
  (hex32 (re s) (hex32 (rf s) (hex32 (rg s) (hex32 (rh s) ""))))))).

End hashlib.

(** The predicate the specification uses for hexadecimal strings. *)
Definition is_hexdigit (c : ascii) : bool :=
  bool_decide (c ∈ hashlib.hexdigits).

(** ** Data *)

(** A [requests.Response], as far as the client reads it. *)
Record Response : Type := { status_code : Z; text : string }.

(** Python objects: [None], [bool], [int], [float] (kept as the literal
    it was read from), [str], [list], [dict] with text keys, and the
    bound method [response.json] of a response. *)
Inductive pyobj : Type :=
| PyNone
| PyBool (b : bool)
| PyInt (z : Z)
| PyFloat (literal : string)
| PyStr (s : string)
| PyList (items : list pyobj)
| PyDict (entries : gmap string pyobj)
| PyMethod_json (self : Response).

(** Modelled from the spec: the exception classes [AuthyTokenIssue] and
    [OutdatedVersion] of [termius/core/exceptions.py], a module that is
    imported by [api.py] and is not among the sources; the specification
    calls them AuthyTokenRequired and IncompatibleVersion. Each carries
    the argument it is raised with. The other constructors are Python's
    own exceptions: [AssertionError] with the message of the failed
    [assert] (the specification's UnexpectedStatus), [ValueError] raised
    by [response.json()] on a body that does not decode, [KeyError] and
    [TypeError] raised by subscripting, [UnicodeEncodeError] raised by
    encoding a text, and [RequestException] for a request that gets no
    response. *)
Inductive exn : Type :=
| AuthyTokenIssue (arg : pyobj)
| OutdatedVersion (message : string)
| AssertionError (message : string)
| ValueError
| KeyError (key : string)
| TypeError
| UnicodeEncodeError
| RequestException.

Inductive result (A : Type) : Type :=
| Return (a : A)
| Raise (e : exn).
Arguments Return {A} a.
Arguments Raise {A} e.

(** ** [six.b] and [hash_password] *)

(** Python 3 text: a sequence of code points. *)
Definition unicode : Type := list N.

(** A text within Latin-1, from its 8-bit characters. *)
Definition latin1 (s : string) : unicode := map N_of_ascii (list_ascii_of_string s).

(** [six.b(s)], on Python 3 [s.encode("latin-1")]: each code point up
    to 255 becomes the byte of the same ordinal, and a code point above
    makes the call raise [UnicodeEncodeError]. *)
Module six.

Definition b (s : unicode) : result (list byte) :=
  match mapM Byte.of_N s with
  | Some bytes => Return bytes
  | None => Raise UnicodeEncodeError
  end.

End six.

(** [hash_password]: generate hash from password. *)
Definition hash_password (password : unicode) : result string :=
  match six.b password with
  | Return password => Return (hashlib.hexdigest (hashlib.sha256 password))
  | Raise e => Raise e
  end.

(** The specification's [digest(password)], for a password within
    Latin-1: the hexadecimal SHA-256 digest of its bytes. *)
Definition digest (password : string) : string :=
  hashlib.hexdigest (hashlib.sha256 (map byte_of_ascii (list_ascii_of_string password))).


(** What the interpreter and the libraries provide: the rendering
    [format(o, '')] that [str.format] applies to a field, the truth
    value [bool(o)], and the JSON decoder behind [response.json()]
    ([None] when it raises). The laws are the part of their behaviour
    that the client's specification relies on. *)
Class Runtime : Type := {
  py_format : pyobj → string;
  py_bool : pyobj → bool;
  json_loads : string → option pyobj;
  py_format_str : ∀ s, py_format (PyStr s) = s;
  py_bool_None : py_bool PyNone = false;
  py_bool_str : ∀ s, py_bool (PyStr s) = negb (String.eqb s "");
  json_loads_empty : json_loads "" = None;
}.

Inductive http_method : Type := GET | POST | PUT | DELETE.

(** The body of a request: none, form fields ([data=]) or a JSON
    document ([json=]). *)
Inductive payload : Type :=
| NoBody
| FormData (fields : gmap string string)
| JsonData (data : pyobj).

(** [requests.structures.CaseInsensitiveDict], the type of
    [request.headers]: the store maps the lowered name of a header to
    the name as it was last set and the value. [d !! name] is
    [d[name]] and [<[name := value]> d] is [d[name] = value]; both
    lower the name first, so that names that differ in case only are
    one header. *)
Module CaseInsensitiveDict.

Record t : Type := { store : gmap string (string * string) }.

(** [str.lower()] on one 8-bit character: the letters A to Z and the
    capital letters of Latin-1 (all of 192 to 222 but the sign at 215)
    have their small letter 32 places up. *)
Definition lower_char (c : ascii) : ascii :=
  let n := N_of_ascii c in
  if ((65 <=? n) && (n <=? 90) || (192 <=? n) && (n <=? 222) && negb (n =? 215))%N
  then ascii_of_N (n + 32)
  else c.

Fixpoint lower (s : string) : string :=
  match s with
  | EmptyString => EmptyString
  | String c rest => String (lower_char c) (lower rest)
  end.

#[global] Instance empty : Empty t := {| store := ∅ |}.

#[global] Instance getitem : Lookup string string t :=
  λ name d, snd <$> store d !! lower name.

#[global] Instance setitem : Insert string string t :=
  λ name value d, {| store := <[lower name := (name, value)]> (store d) |}.

#[global] Instance singleton : SingletonM string string t :=
  λ name value, <[name := value]> ∅.

(** The headers as they are sent: each name as it was last set, with
    its value. *)
Definition items (d : t) : list (string * string) := (map_to_list (store d)).*2.

(** What every dict built from the empty one by assignments satisfies:
    an entry is kept under the lowered form of its name. *)
Definition wf (d : t) : Prop :=
  ∀ key name value, store d !! key = Some (name, value) → key = lower name.

End CaseInsensitiveDict.

(** An outgoing request. Headers the HTTP library adds on its own are
    left out. *)
Module Request.
Record t : Type := {
  method : http_method;
  url : string;
  headers : CaseInsensitiveDict.t;
  body : payload;
  timeout : option Z;
}.
End Request.

(** ** [class TermiusAuth(AuthBase)]: authentication method to sync-cloud *)
Module TermiusAuth.
Section TermiusAuth.
Context `{Runtime}.

Record t : Type := { username : pyobj; apikey : pyobj }.

Definition header_name : string := "Authorization".

Definition __init__ (username apikey : pyobj) : t :=
  {| username := username; apikey := apikey |}.

(** Render auth header content. *)
Definition auth_header (self : t) : string :=
  "ApiKey " +:+ py_format (username self) +:+ ":" +:+ py_format (apikey self).

(** Add header to request. *)
Definition __call__ (self : t) (request : Request.t) : Request.t :=
  {| Request.method := Request.method request;
     Request.url := Request.url request;
     Request.headers := <[header_name := auth_header self]> (Request.headers request);
     Request.body := Request.body request;
     Request.timeout := Request.timeout request |}.

End TermiusAuth.
End TermiusAuth.

(** ** The world the client runs in *)

(** The [API] object: its only instance attribute is [auth]. *)
Record API_object : Type := { auth : option TermiusAuth.t }.

(** What the network does with a request. *)
Inductive reply : Type :=
| Responded (response : Response)
| NoResponse.

Inductive level : Type := DEBUG | WARNING.

Record world : Type := {
  self : API_object;
  wire : list Request.t;            (* requests sent so far, oldest first *)
  inbox : list reply;               (* what the network answers, next first *)
  journal : list (level * string);  (* records given to [API.logger] *)
}.

Definition M (A : Type) : Type := world → result A * world.

#[global] Instance M_ret : MRet M := λ A a w, (Return a, w).

#[global] Instance M_bind : MBind M := λ A B f m w,
  match m w with
  | (Return a, w') => f a w'
  | (Raise e, w') => (Raise e, w')
  end.

Definition raise {A : Type} (e : exn) : M A := λ w, (Raise e, w).

(** A computation without effect on the world. *)
Definition lift {A : Type} (r : result A) : M A := λ w, (r, w).

Definition get_self : M API_object := λ w, (Return (self w), w).

Definition set_self (o : API_object) : M unit := λ w,
  (Return tt,
   {| self := o; wire := wire w; inbox := inbox w; journal := journal w |}).

Definition logger_log (l : level) (message : string) : M unit := λ w,
  (Return tt,
   {| self := self w; wire := wire w; inbox := inbox w;
      journal := journal w ++ [(l, message)] |}).

(** ** The part of [requests] the client uses *)
Module requests.
Section requests.
Context `{Runtime}.

(** Send one request: [auth], when given, is applied to the request
    before it leaves; the next reply of the network is the outcome. *)
Definition request (method : http_method) (url : string) (body : payload)
    (auth : option TermiusAuth.t) (timeout : option Z) : M Response := λ w,
  let r := {| Request.method := method; Request.url := url; Request.headers := ∅;
              Request.body := body; Request.timeout := timeout |} in
  let r := match auth with
           | Some a => TermiusAuth.__call__ a r
           | None => r
           end in
  let sent (rest : list reply) :=
    {| self := self w; wire := wire w ++ [r]; inbox := rest; journal := journal w |} in
  match inbox w with
  | Responded response :: rest => (Return response, sent rest)
  | NoResponse :: rest => (Raise RequestException, sent rest)
  | [] => (Raise RequestException, sent [])
  end.

(** [response.json()] *)
Definition Response_json (response : Response) : M pyobj :=
  match json_loads (text response) with
  | Some o => mret o
  | None => raise ValueError
  end.

End requests.
End requests.

(** [o[key]] for a text key. *)
Definition getitem (o : pyobj) (key : string) : M pyobj :=
  match o with
  | PyDict entries =>
      match entries !! key with
      | Some v => mret v
      | None => raise (KeyError key)
      end
  | _ => raise TypeError
  end.

(** ** [class API]: class to send requests to sync cloud *)
Module API.
Section API.
Context `{Runtime}.

Definition host : string := "api.termius.com".
Definition base_url : string := "https://" +:+ host +:+ "/api/".
Definition timeout : Z := 180.

(** Construct new API instance. *)
Definition __init__ (username apikey : pyobj) : API_object :=
  if py_bool username && py_bool apikey
  then {| auth := Some (TermiusAuth.__init__ username apikey) |}
  else {| auth := None |}.

(** Provide credentials. *)
Definition set_auth (username apikey : pyobj) : M unit :=
  set_self {| auth := Some (TermiusAuth.__init__ username apikey) |}.

(** Create full url to endpoint. *)
Definition request_url (endpoint : string) : string := base_url +:+ endpoint.

Definition __check_response (response : Response)
    (success_statuses : option (list Z)) : M unit :=
  if decide (status_code response = 490)
  then raise (OutdatedVersion
    ("The current version of Termius CLI is "
     +:+ "incompatible with new Termius encryption algorithms."))
  else
    let success_statuses :=
      match success_statuses with
      | Some ((_ :: _) as given) => given
      | _ => [200; 201; 202; 204]
      end in
    if decide (status_code response ∈ success_statuses)
    then mret tt
    else raise (AssertionError (text response)).

Definition __check_login_response (response : Response) : M unit :=
  if decide (status_code response = 487)
  then raise (AuthyTokenIssue (PyMethod_json response))
  else
    (if decide (status_code response ≠ 200)
     then logger_log WARNING "Can not login!"
     else mret tt);;
    __check_response response (Some [200]).

(** Return user's auth token. *)
Definition login (email : string) (password : unicode) (authy_token : option string)
    : M pyobj :=
  password ← lift (hash_password password);
  let payload : gmap string string :=
    <["email" := email]> (<["password" := password]> ∅) in
  let payload :=
    match authy_token with
    | Some token => <["authy_token" := token]> payload
    | None => payload
    end in
  response ← requests.request POST (request_url "v3.1/login/") (FormData payload) None None;
  __check_login_response response;;
  response_payload ← requests.Response_json response;
  apikey ← getitem response_payload "token";
  set_auth (PyStr email) apikey;;
  mret response_payload.

(** Send authorized post request. *)
Definition post (endpoint : string) (data : pyobj) : M pyobj :=
  logger_log DEBUG "send post";;
  self ← get_self;
  response ← requests.request POST (request_url endpoint) (JsonData data)
                              (auth self) (Some timeout);
  logger_log DEBUG ("get response = " +:+ pretty (status_code response));;
  __check_response response (Some [201]);;
  requests.Response_json response.

(** Send authorized get request. *)
Definition get (endpoint : string) : M pyobj :=
  self ← get_self;
  response ← requests.request GET (request_url endpoint) NoBody
                              (auth self) (Some timeout);
  __check_response response (Some [200]);;
  requests.Response_json response.

(** Send authorized delete request. *)
Definition delete (endpoint : string) : M pyobj :=
  self ← get_self;
  response ← requests.request DELETE (request_url endpoint) NoBody (auth self) None;
  __check_response response (Some [200; 204]);;
  requests.Response_json response.

(** Send authorized put request. *)
Definition put (endpoint : string) (data : pyobj) : M pyobj :=
  self ← get_self;
  response ← requests.request PUT (request_url endpoint) (JsonData data)
                              (auth self) (Some timeout);
  __check_response response (Some [200; 202]);;
  requests.Response_json response.

End API.
End API.

(** ** An instance of [Runtime]

    A decoder for JSON documents written in 8-bit characters, following
    the scanner of Python's [json] module (objects, arrays, strings with
    their escapes, numbers, [true], [false], [null], and the literals
    [NaN], [Infinity] and [-Infinity] that Python also accepts), and the
    two builtins. It is what the client is run against on concrete
    inputs. Its limits: a [\u] escape above [00ff] has no 8-bit
    character and is refused; a float keeps its literal, so it is falsy
    when its mantissa is zero and is rendered as written; lists and
    dicts are rendered in short. *)
Module json.

Local Open Scope char_scope.

Definition is_ws (c : ascii) : bool :=
  bool_decide (c ∈ [" "; "009"; "010"; "013"]).

Fixpoint skip_ws (s : list ascii) : list ascii :=
  match s with
  | c :: rest => if is_ws c then skip_ws rest else s
  | [] => []
  end.

Definition digit_value (c : ascii) : option Z :=
  let n := Z.of_N (N_of_ascii c) in
  if ((48 <=? n) && (n <=? 57))%Z then Some (n - 48)%Z else None.

Definition hex_value (c : ascii) : option Z :=
  let n := Z.of_N (N_of_ascii c) in
  if ((48 <=? n) && (n <=? 57))%Z then Some (n - 48)%Z
  else if ((97 <=? n) && (n <=? 102))%Z then Some (n - 87)%Z
  else if ((65 <=? n) && (n <=? 70))%Z then Some (n - 55)%Z
  else None.

(** The longest prefix of digits, and what follows it. *)
Fixpoint digits (s : list ascii) : list ascii * list ascii :=
  match s with
  | c :: rest =>
      match digit_value c with
      | Some _ => let '(ds, r) := digits rest in (c :: ds, r)
      | None => ([], s)
      end
  | [] => ([], [])
  end.

Definition decimal (ds : list ascii) : Z :=
  fold_left (λ acc c, 10 * acc + default 0 (digit_value c))%Z ds 0%Z.

(** [NUMBER_RE]: an optional minus, an integer part without leading
    zeros, then an optional fraction and an optional exponent. Without
    the last two the number is an [int]. *)
Definition scan_number (s : list ascii) : option (pyobj * list ascii) :=
  let '(minus, s1) := match s with "-" :: r => (true, r) | _ => (false, s) end in
  let integer : option (list ascii * list ascii) :=
    match s1 with
    | "0" :: r => Some (["0"], r)
    | c :: r =>
        match digit_value c with
        | Some _ => let '(ds, r') := digits r in Some (c :: ds, r')
        | None => None
        end
    | [] => None
    end in
  match integer with
  | None => None
  | Some (int_part, r) =>
      let '(frac, r1) :=
        match r with
        | "." :: r' =>
            match digits r' with
            | ([], _) => ([], r)
            | (ds, r'') => ("." :: ds, r'')
            end
        | _ => ([], r)
        end in
      let '(exponent, r2) :=
        match r1 with
        | e :: r' =>
            if bool_decide (e ∈ ["e"; "E"]) then
              let '(sign, r'') :=
                match r' with
                | "+" :: t => (["+"], t)
                | "-" :: t => (["-"], t)
                | _ => ([], r')
                end in
              match digits r'' with
              | ([], _) => ([], r1)
              | (ds, r''') => (e :: sign ++ ds, r''')
              end
            else ([], r1)
        | [] => ([], r1)
        end in
      let sign := if minus then ["-"] else [] in
      match frac, exponent with
      | [], [] =>
          Some (PyInt (if minus then - decimal int_part else decimal int_part), r2)
      | _, _ =>
          Some (PyFloat (string_of_list_ascii (sign ++ int_part ++ frac ++ exponent)), r2)
      end
  end.

(** The characters of a string up to its closing quote, escapes
    resolved; control characters are refused. *)
Fixpoint scan_string (s : list ascii) (acc : list ascii) : option (string * list ascii) :=
  match s with
  | [] => None
  | "034" :: rest => Some (string_of_list_ascii (rev acc), rest)
  | "\" :: c :: rest =>
      let simple (x : ascii) := scan_string rest (x :: acc) in
      if bool_decide (c = "034") then simple "034"
      else if bool_decide (c = "\") then simple "\"
      else if bool_decide (c = "/") then simple "/"
      else if bool_decide (c = "b") then simple "008"
      else if bool_decide (c = "f") then simple "012"
      else if bool_decide (c = "n") then simple "010"
      else if bool_decide (c = "r") then simple "013"
      else if bool_decide (c = "t") then simple "009"
      else if bool_decide (c = "u") then
        match rest with
        | h1 :: h2 :: h3 :: h4 :: rest' =>
            match hex_value h1, hex_value h2, hex_value h3, hex_value h4 with
            | Some 0%Z, Some 0%Z, Some d3, Some d4 =>
                scan_string rest' (ascii_of_N (Z.to_N (16 * d3 + d4)%Z) :: acc)
            | _, _, _, _ => None
            end
        | _ => None
        end
      else None
  | c :: rest =>
      if (Z.of_N (N_of_ascii c) <? 32)%Z then None else scan_string rest (c :: acc)
  end.

Fixpoint scan_once (fuel : nat) (s : list ascii) : option (pyobj * list ascii) :=
  match fuel with
  | O => None
  | S fuel =>
      match s with
      | "034" :: r =>
          match scan_string r [] with
          | Some (str, r') => Some (PyStr str, r')
          | None => None
          end
      | "{" :: r =>
          match skip_ws r with
          | "}" :: r' => Some (PyDict ∅, r')
          | r' => scan_members fuel r' ∅
          end
      | "[" :: r =>
          match skip_ws r with
          | "]" :: r' => Some (PyList [], r')
          | r' => scan_items fuel r' []
          end
      | "n" :: "u" :: "l" :: "l" :: r => Some (PyNone, r)
      | "t" :: "r" :: "u" :: "e" :: r => Some (PyBool true, r)
      | "f" :: "a" :: "l" :: "s" :: "e" :: r => Some (PyBool false, r)
      | _ =>
          match scan_number s with
          | Some found => Some found
          | None =>
              match s with
              | "N" :: "a" :: "N" :: r => Some (PyFloat "NaN", r)
              | "I" :: "n" :: "f" :: "i" :: "n" :: "i" :: "t" :: "y" :: r =>
                  Some (PyFloat "Infinity", r)
              | "-" :: "I" :: "n" :: "f" :: "i" :: "n" :: "i" :: "t" :: "y" :: r =>
                  Some (PyFloat "-Infinity", r)
              | _ => None
              end
          end
      end
  end
with scan_items (fuel : nat) (s : list ascii) (acc : list pyobj)
    : option (pyobj * list ascii) :=
  match fuel with
  | O => None
  | S fuel =>
      match scan_once fuel s with
      | Some (v, r) =>
          match skip_ws r with
          | "]" :: r' => Some (PyList (rev (v :: acc)), r')
          | "," :: r' => scan_items fuel (skip_ws r') (v :: acc)
          | _ => None
          end
      | None => None
      end
  end
with scan_members (fuel : nat) (s : list ascii) (acc : gmap string pyobj)
    : option (pyobj * list ascii) :=
  match fuel with
  | O => None
  | S fuel =>
      match s with
      | "034" :: r =>
          match scan_string r [] with
          | Some (key, r1) =>
              match skip_ws r1 with
              | ":" :: r2 =>
                  match scan_once fuel (skip_ws r2) with
                  | Some (v, r3) =>
                      match skip_ws r3 with
                      | "}" :: r4 => Some (PyDict (<[key := v]> acc), r4)
                      | "," :: r4 => scan_members fuel (skip_ws r4) (<[key := v]> acc)
                      | _ => None
                      end
                  | None => None
                  end
              | _ => None
              end
          | None => None
          end
      | _ => None
      end
  end.

(** [json.loads]: one value, with white space around it and nothing
    else. *)
Definition loads (s : string) : option pyobj :=
  let cs := list_ascii_of_string s in
  match scan_once (2 * length cs + 2)%nat (skip_ws cs) with
  | Some (o, rest) =>
      match skip_ws rest with
      | [] => Some o
      | _ => None
      end
  | None => None
  end.

Definition nonzero_digit (c : ascii) : bool :=
  match digit_value c with
  | Some d => negb (d =? 0)%Z
  | None => false
  end.

(** The characters of a float literal before its exponent. *)
Fixpoint mantissa (s : list ascii) : list ascii :=
  match s with
  | c :: rest => if bool_decide (c ∈ ["e"; "E"]) then [] else c :: mantissa rest
  | [] => []
  end.

Local Open Scope string_scope.

Definition bool (o : pyobj) : bool :=
  match o with
  | PyNone => false
  | PyBool b => b
  | PyInt z => negb (z =? 0)%Z
  | PyFloat literal =>
      bool_decide (literal ∈ ["NaN"; "Infinity"; "-Infinity"])
      || existsb nonzero_digit (mantissa (list_ascii_of_string literal))
  | PyStr s => negb (String.eqb s "")
  | PyList items => match items with [] => false | _ => true end
  | PyDict entries => negb (bool_decide (entries = ∅))
  | PyMethod_json _ => true
  end.

Definition format (o : pyobj) : string :=
  match o with
  | PyNone => "None"
  | PyBool true => "True"
  | PyBool false => "False"
  | PyInt z => pretty z
  | PyFloat literal => literal
  | PyStr s => s
  | PyList _ => "[...]"
  | PyDict _ => "{...}"
  | PyMethod_json r =>
      "<bound method Response.json of <Response [" +:+ pretty (status_code r) +:+ "]>>"
  end.

End json.

#[global, refine] Instance cpython : Runtime := {|
  py_format := json.format;
  py_bool := json.bool;
  json_loads := json.loads;
|}.
Proof.
  - reflexivity.
  - reflexivity.
  - reflexivity.
  - reflexivity.
Defined.

(** ** The operations of the client, as the specification lists them

    The password of a [Login] is a text within Latin-1, one that
    [login] can encode and so goes on to send; [API.login] itself takes
    any text. *)

Inductive operation : Type :=
| Login (email password : string) (authy_token : option string)
| Post (endpoint : string) (data : pyobj)
| Get (endpoint : string)
| Delete (endpoint : string)
| Put (endpoint : string) (data : pyobj).

Definition call `{Runtime} (op : operation) : M pyobj :=
  match op with
  | Login email password authy_token => API.login email (latin1 password) authy_token
  | Post endpoint data => API.post endpoint data
  | Get endpoint => API.get endpoint
  | Delete endpoint => API.delete endpoint
  | Put endpoint data => API.put endpoint data
  end.

(** The specification's table of acceptable statuses (section 4.4). *)
Definition acceptable (op : operation) : list Z :=
  match op with
  | Login _ _ _ => [200]
  | Post _ _ => [201]
  | Get _ => [200]
  | Delete _ => [200; 204]
  | Put _ _ => [200; 202]
  end.

Definition is_login (op : operation) : Prop :=
  match op with
  | Login _ _ _ => True
  | _ => False
  end.

(** What the decoded body has to be for the operation to hand it back:
    [login] subscripts it with ["token"]. *)
Definition usable (op : operation) (o : pyobj) : Prop :=
  match op with
  | Login _ _ _ => ∃ entries token, o = PyDict entries ∧ entries !! "token" = Some token
  | _ => True
  end.

(** The message [OutdatedVersion] is raised with. *)
Definition outdated_message : string :=
  "The current version of Termius CLI is incompatible with new Termius encryption algorithms.".

(** A world in which nothing has happened yet: the given client, the
    given replies to come. *)
Definition fresh (o : API_object) (replies : list reply) : world :=
  {| self := o; wire := []; inbox := replies; journal := [] |}.

(** "The failure carries the status code": the code can be read off the
    exception of every call that fails on an unexpected status. *)
Definition carries_status `{Runtime} (status_of : exn → Z) : Prop :=
  ∀ op w r rest e,
    inbox w = Responded r :: rest →
    status_code r ≠ 490 →
    status_code r ∉ acceptable op →
    (is_login op → status_code r ≠ 487) →
    (call op w).1 = Raise e →
    status_of e = status_code r.

(** [None] or a text, as a Python object. *)
Definition of_option (o : option string) : pyobj :=
  match o with
  | Some s => PyStr s
  | None => PyNone
  end.

(** The specification's claim that a call returns exactly when the
    status is acceptable, as it is worded. *)
Definition returns_iff_acceptable `{Runtime} : Prop :=
  ∀ op w r rest,
    inbox w = Responded r :: rest →
    status_code r ≠ 490 →
    (is_login op → status_code r ≠ 487) →
    ((∃ o, (call op w).1 = Return o) ↔ status_code r ∈ acceptable op).

(** A caller that issues the operations one after the other and goes on
    after a failure: the world after the last one. *)
Definition after `{Runtime} (ops : list operation) (w : world) : world :=
  fold_left (λ w' op, (call op w').2) ops w.

(** The character [:], which [auth_header] puts between the two
    credentials. *)
Definition colon : ascii := ":"%char.

(** Inputs the client is run on below. *)
Module Sample.

Definition quoted (s : string) : string :=
  String "034"%char (s +:+ String "034"%char "").

(** The body [{"token": "abc123"}]. *)
Definition token_body : string :=
  "{" +:+ quoted "token" +:+ ": " +:+ quoted "abc123" +:+ "}".

Definition token_entries : gmap string pyobj := <["token" := PyStr "abc123"]> ∅.

(** A client without credentials. *)
Definition anonymous : API_object := {| auth := None |}.

Definition answer (status : Z) (body : string) : reply :=
  Responded {| status_code := status; text := body |}.

End Sample.

(** A client with credentials. *)
Definition signed_in : API_object :=
  {| auth := Some {| TermiusAuth.username := PyStr "a@b.com";
                     TermiusAuth.apikey := PyStr "abc123" |} |}.

(** * Properties *)

(** Encoding a text within Latin-1 gives the bytes of its characters. *)
Lemma six_b_latin1 (s : string) :
  six.b (latin1 s) = Return (map byte_of_ascii (list_ascii_of_string s)).
Proof.
  unfold six.b, latin1.
  rewrite (mapM_Some_2 Byte.of_N _ (map byte_of_ascii (list_ascii_of_string s)));
    [ reflexivity | ].
  induction (list_ascii_of_string s) as [|c l IH]; simpl; constructor;
    [ symmetry; apply byte_of_ascii_via_N | exact IH ].
Qed.

(** On a password within Latin-1 [hash_password] returns the
    specification's digest. *)
Lemma hash_password_latin1 (s : string) : hash_password (latin1 s) = Return (digest s).
Proof. unfold hash_password. by rewrite six_b_latin1. Qed.

(** Unfolds one run of the client down to the replies in the inbox. *)
Ltac run :=
  unfold call, API.login, API.post, API.get, API.delete, API.put,
    API.__check_login_response, API.__check_response, API.set_auth,
    requests.request, requests.Response_json, getitem, logger_log, get_self, set_self,
    raise, lift, mbind, M_bind, mret, M_ret in *;
  rewrite ?hash_password_latin1 in *;
  simpl in *.

(** Cases on the next status test in the goal. *)
Ltac status_cases :=
  repeat (case_decide; simpl; try done; try lia).

Section Properties.
Context `{Runtime}.

Lemma not_elem_of_statuses (x : Z) (l : list Z) :
  Forall (λ y, x ≠ y) l → x ∉ l.
Proof.
  intros Hall Hin. rewrite Forall_forall in Hall. by apply (Hall x Hin).
Qed.

(** [__check_response] on a 490 response, whatever the statuses asked for. *)
Lemma check_response_490 (r : Response) (statuses : option (list Z)) (w : world) :
  status_code r = 490 →
  API.__check_response r statuses w = (Raise (OutdatedVersion outdated_message), w).
Proof.
  intros H490. unfold API.__check_response, raise.
  case_decide; [reflexivity | contradiction].
Qed.

(** C2: every operation that receives a response with status 490 raises
    [OutdatedVersion] (the specification's IncompatibleVersion); the test
    comes before the one on the acceptable statuses, so it fires for
    every set of statuses the check is given, 490 included. *)
Theorem status_490_raises_outdated_version
    (op : operation) (w : world) (r : Response) (rest : list reply) :
  inbox w = Responded r :: rest →
  status_code r = 490 →
  (call op w).1 = Raise (OutdatedVersion outdated_message)
  ∧ ∀ statuses w', (API.__check_response r statuses w').1
                   = Raise (OutdatedVersion outdated_message).
Proof.
  intros Hin H490. split.
  - destruct op; run; rewrite Hin; simpl; status_cases.
  - intros statuses w'. by rewrite check_response_490.
Qed.

(** What [login] makes of a decoded body: it hands it back when it is
    a dict with a ["token"] entry. *)
Lemma login_outcome
    (email password : string) (token : option string)
    (w : world) (r : Response) (rest : list reply) :
  inbox w = Responded r :: rest →
  (API.login email (latin1 password) token w).1 =
    if decide (status_code r = 487) then Raise (AuthyTokenIssue (PyMethod_json r))
    else if decide (status_code r = 490) then Raise (OutdatedVersion outdated_message)
    else if decide (status_code r ∈ [200]) then
      match json_loads (text r) with
      | None => Raise ValueError
      | Some (PyDict entries) =>
          match entries !! "token" with
          | Some _ => Return (PyDict entries)
          | None => Raise (KeyError "token")
          end
      | Some _ => Raise TypeError
      end
    else Raise (AssertionError (text r)).
Proof.
  intros Hin. run. rewrite Hin. simpl.
  repeat (case_decide; simpl; try done).
  all: destruct (json_loads (text r)) as [[]|]; simpl; try done.
  all: by destruct (_ !! "token").
Qed.

(** The outcome of the four other operations. *)
Lemma crud_outcome (op : operation) (w : world) (r : Response) (rest : list reply) :
  ¬ is_login op →
  inbox w = Responded r :: rest →
  (call op w).1 =
    if decide (status_code r = 490) then Raise (OutdatedVersion outdated_message)
    else if decide (status_code r ∈ acceptable op) then
      match json_loads (text r) with
      | Some o => Return o
      | None => Raise ValueError
      end
    else Raise (AssertionError (text r)).
Proof.
  intros Hop Hin. destruct op; try (by destruct Hop); run; rewrite Hin; simpl.
  all: repeat (case_decide; simpl; try done).
  all: by destruct (json_loads (text r)).
Qed.

(** C1, as amended: for a response whose status is not 490 (nor 487 for
    [login]), a status outside the operation's acceptable set makes the
    call raise [AssertionError] (the specification's UnexpectedStatus);
    a status inside it never does, and the call returns the decoded body
    whenever the body decodes (for [login]: to a dict with a ["token"]
    entry). A call that returns has therefore received an acceptable
    status and returns the decoded body. *)
Theorem status_classification
    (op : operation) (w : world) (r : Response) (rest : list reply) :
  inbox w = Responded r :: rest →
  status_code r ≠ 490 →
  (is_login op → status_code r ≠ 487) →
  (status_code r ∉ acceptable op →
     (call op w).1 = Raise (AssertionError (text r)))
  ∧ (status_code r ∈ acceptable op →
     (∀ message, (call op w).1 ≠ Raise (AssertionError message))
     ∧ ∀ o, json_loads (text r) = Some o → usable op o → (call op w).1 = Return o)
  ∧ (∀ o, (call op w).1 = Return o →
     status_code r ∈ acceptable op ∧ json_loads (text r) = Some o).
Proof.
  intros Hin H490 H487.
  assert (Hout : (call op w).1 =
    if decide (status_code r ∈ acceptable op) then
      match json_loads (text r) with
      | None => Raise ValueError
      | Some o =>
          match op, o with
          | Login _ _ _, PyDict entries =>
              match entries !! "token" with
              | Some _ => Return o
              | None => Raise (KeyError "token")
              end
          | Login _ _ _, _ => Raise TypeError
          | _, _ => Return o
          end
      end
    else Raise (AssertionError (text r))).
  { destruct op as [email password token | | | | ].
    2-5: rewrite (crud_outcome _ w r rest) by (done || by intros []).
    2-5: rewrite (decide_False (P := status_code r = 490)) by done.
    2-5: case_decide; [ | done].
    2-5: by destruct (json_loads (text r)).
    simpl call. rewrite (login_outcome _ _ _ _ _ _ Hin).
    rewrite (decide_False (P := status_code r = 487)) by exact (H487 I).
    rewrite (decide_False (P := status_code r = 490)) by done.
    simpl acceptable. case_decide; [ | done].
    by destruct (json_loads (text r)) as [[]|]. }
  rewrite Hout. clear Hout.
  split; [ | split ].
  - intros Hnot. by rewrite decide_False.
  - intros Hacc. rewrite decide_True by done. split.
    + intros message. destruct (json_loads (text r)) as [o|]; [ | done].
      destruct op, o; try done. by destruct (_ !! "token").
    + intros o Hdec Huse. rewrite Hdec.
      destruct op; try done.
      destruct Huse as (entries & token & -> & Htoken). by rewrite Htoken.
  - intros o. case_decide; [ | done].
    destruct (json_loads (text r)) as [o'|]; [ | done].
    destruct op, o'; try (by intros [= ->]).
    destruct (_ !! "token"); [ by intros [= ->] | done ].
Qed.

(** Reading a header after an assignment: the assigned value under
    every spelling of the name, what was there under the other names. *)
Lemma headers_lookup_insert (d : CaseInsensitiveDict.t) (name name' value : string) :
  <[name := value]> d !! name'
  = if decide (CaseInsensitiveDict.lower name = CaseInsensitiveDict.lower name')
    then Some value else d !! name'.
Proof.
  unfold lookup, insert, CaseInsensitiveDict.getitem, CaseInsensitiveDict.setitem.
  cbn [CaseInsensitiveDict.store]. case_decide as Heq.
  - by rewrite <- Heq, lookup_insert_eq.
  - by rewrite lookup_insert_ne.
Qed.

Lemma headers_lookup_insert_eq (d : CaseInsensitiveDict.t) (name value : string) :
  <[name := value]> d !! name = Some value.
Proof. rewrite headers_lookup_insert. by rewrite decide_True. Qed.

Lemma headers_lookup_empty (name : string) : (∅ : CaseInsensitiveDict.t) !! name = None.
Proof. reflexivity. Qed.

Lemma headers_insert_insert (d : CaseInsensitiveDict.t) (name value : string) :
  <[name := value]> (<[name := value]> d) = <[name := value]> d.
Proof.
  unfold insert, CaseInsensitiveDict.setitem. cbn [CaseInsensitiveDict.store].
  by rewrite insert_insert_eq.
Qed.

(** The store after an assignment. *)
Lemma headers_store_insert (d : CaseInsensitiveDict.t) (name value : string) :
  CaseInsensitiveDict.store (<[name := value]> d)
  = <[CaseInsensitiveDict.lower name := (name, value)]> (CaseInsensitiveDict.store d).
Proof. reflexivity. Qed.

(** Assignments keep every entry under the lowered form of its name. *)
Lemma headers_wf_insert (d : CaseInsensitiveDict.t) (name value : string) :
  CaseInsensitiveDict.wf d → CaseInsensitiveDict.wf (<[name := value]> d).
Proof.
  intros Hwf key name' value'. rewrite headers_store_insert.
  destruct (decide (CaseInsensitiveDict.lower name = key)) as [<- | Hne].
  - rewrite lookup_insert_eq. by intros [= <- <-].
  - rewrite lookup_insert_ne by done. apply Hwf.
Qed.

Lemma headers_wf_empty : CaseInsensitiveDict.wf ∅.
Proof. intros key name value. unfold empty, CaseInsensitiveDict.empty. simpl. done. Qed.

Lemma headers_singleton (name value : string) :
  ({[ name := value ]} : CaseInsensitiveDict.t) = <[name := value]> ∅.
Proof. reflexivity. Qed.

(** From here on headers are read and written through these lemmas, not
    through the store. *)
Opaque CaseInsensitiveDict.getitem CaseInsensitiveDict.setitem
  CaseInsensitiveDict.singleton.

(** Every operation but [login] puts exactly one request on the wire,
    signed by the client's current signer when there is one. *)
Lemma crud_request (op : operation) (w : world) :
  ¬ is_login op →
  ∃ q, wire (call op w).2 = wire w ++ [q]
       ∧ Request.headers q !! "Authorization"
         = TermiusAuth.auth_header <$> auth (self w).
Proof.
  intros Hop.
  destruct op; try (by destruct Hop); run.
  all: eexists; split;
    [ destruct (inbox w) as [|[r|] rest]; simpl;
      repeat (case_decide; simpl); try reflexivity;
      destruct (json_loads (text r)); reflexivity | ].
  all: destruct (auth (self w)); simpl;
    [ apply headers_lookup_insert_eq | apply headers_lookup_empty ].
Qed.

(** C3, on the code: a login answered with status 487 raises
    [AuthyTokenIssue] and leaves the client object as it was, but the
    exception does not carry the raw body: its argument is the bound
    method [response.json] (the source passes [response.json], not
    [response.json()] and not [response.text]). *)
Theorem login_487_raises_authy_token_issue
    (email password : string) (authy_token : option string)
    (w : world) (r : Response) (rest : list reply) :
  inbox w = Responded r :: rest →
  status_code r = 487 →
  (API.login email (latin1 password) authy_token w).1 = Raise (AuthyTokenIssue (PyMethod_json r))
  ∧ self (API.login email (latin1 password) authy_token w).2 = self w
  ∧ PyMethod_json r ≠ PyStr (text r).
Proof.
  intros Hin H487. split; [ | split ].
  - rewrite (login_outcome _ _ _ _ _ _ Hin). by rewrite decide_True.
  - run. rewrite Hin. simpl. by rewrite decide_True.
  - discriminate.
Qed.

(** C4: a login answered with status 200 and a JSON object that has a
    ["token"] entry sends one unsigned POST to the login endpoint whose
    form fields are the password digest, which is what [hash_password]
    returns for the password, and the email, plus
    ["authy_token"] exactly when a second factor is given; it returns the
    decoded body and installs the signer [(email, token)], so that every
    later get, post, put or delete of a client in that state carries the
    header [Authorization: ApiKey email:token]. *)
Theorem login_success
    (email password : string) (authy_token : option string)
    (w : world) (r : Response) (rest : list reply)
    (entries : gmap string pyobj) (token : pyobj) :
  inbox w = Responded r :: rest →
  status_code r = 200 →
  json_loads (text r) = Some (PyDict entries) →
  entries !! "token" = Some token →
  ∃ fields,
    wire (API.login email (latin1 password) authy_token w).2
      = wire w ++ [ {| Request.method := POST;
                       Request.url := "https://api.termius.com/api/v3.1/login/";
                       Request.headers := ∅;
                       Request.body := FormData fields;
                       Request.timeout := None |} ]
    ∧ fields !! "password" = Some (digest password)
    ∧ fields !! "email" = Some email
    ∧ fields !! "authy_token" = authy_token
    ∧ (∀ name, name ∉ ["password"; "email"; "authy_token"] → fields !! name = None)
    ∧ (API.login email (latin1 password) authy_token w).1 = Return (PyDict entries)
    ∧ self (API.login email (latin1 password) authy_token w).2
      = {| auth := Some {| TermiusAuth.username := PyStr email;
                           TermiusAuth.apikey := token |} |}
    ∧ (∀ op w', self w' = self (API.login email (latin1 password) authy_token w).2 →
         ¬ is_login op →
         ∃ q, wire (call op w').2 = wire w' ++ [q]
              ∧ Request.headers q !! "Authorization"
                = Some ("ApiKey " +:+ email +:+ ":" +:+ py_format token))
    ∧ (∀ secret, token = PyStr secret →
         "ApiKey " +:+ email +:+ ":" +:+ py_format token
         = "ApiKey " +:+ email +:+ ":" +:+ secret)
    ∧ hash_password (latin1 password) = Return (digest password).
Proof.
  intros Hin H200 Hdec Htoken.
  assert (Hself : self (API.login email (latin1 password) authy_token w).2
                  = {| auth := Some {| TermiusAuth.username := PyStr email;
                                       TermiusAuth.apikey := token |} |}).
  { run. rewrite Hin. simpl. rewrite H200. simpl. by rewrite Hdec, Htoken. }
  eexists. split; [ | repeat split ].
  - run. rewrite Hin. simpl. rewrite H200. simpl. rewrite Hdec, Htoken. reflexivity.
  - destruct authy_token; by simplify_map_eq.
  - destruct authy_token; by simplify_map_eq.
  - destruct authy_token; by simplify_map_eq.
  - intros name Hname.
    assert (name ≠ "password" ∧ name ≠ "email" ∧ name ≠ "authy_token")
      as (? & ? & ?) by set_solver.
    destruct authy_token; by simplify_map_eq.
  - rewrite (login_outcome _ _ _ _ _ _ Hin), H200. simpl. by rewrite Hdec, Htoken.
  - exact Hself.
  - intros op w' Hw' Hop. rewrite Hself in Hw'.
    destruct (crud_request op w' Hop) as (q & Hwire & Hheader).
    exists q. split; [ done | ]. rewrite Hheader, Hw'. simpl.
    unfold TermiusAuth.auth_header. simpl. by rewrite py_format_str.
  - intros secret ->. by rewrite py_format_str.
  - apply hash_password_latin1.
Qed.

(** C5, on the code: a delete answered with status 204 and an empty
    body does not return. The status passes the check, being one of
    delete's acceptable statuses, and decoding the empty body then
    raises [ValueError]. *)
Theorem delete_204_empty_body_raises
    (endpoint : string) (w : world) (r : Response) (rest : list reply) :
  inbox w = Responded r :: rest →
  status_code r = 204 →
  text r = "" →
  status_code r ∈ acceptable (Delete endpoint)
  ∧ (API.delete endpoint w).1 = Raise ValueError.
Proof.
  intros Hin H204 Hempty. split.
  - rewrite H204. set_solver.
  - change (API.delete endpoint w) with (call (Delete endpoint) w).
    rewrite (crud_outcome _ w r rest) by (done || by intros []).
    rewrite H204, Hempty. simpl. by rewrite json_loads_empty.
Qed.

(** A key that does not occur in a list has no entry in it. *)
Lemma no_entry_for_fresh_key {A : Type} (l : list (string * A)) (k : string) :
  k ∉ l.*1 → filter (λ kv, kv.1 = k) l = [].
Proof.
  induction l as [|[k' v'] l IH]; simpl; intros Hfresh; [ reflexivity | ].
  apply not_elem_of_cons in Hfresh as [Hne Hfresh].
  rewrite filter_cons_False by (simpl; congruence). by apply IH.
Qed.

(** In a list without repeated keys, a key that occurs has one entry. *)
Lemma one_entry_per_key {A : Type} (l : list (string * A)) (k : string) (v : A) :
  NoDup (l.*1) → (k, v) ∈ l → filter (λ kv, kv.1 = k) l = [(k, v)].
Proof.
  induction l as [|[k' v'] l IH]; simpl; intros Hnodup Hin.
  - by apply elem_of_nil in Hin.
  - apply NoDup_cons in Hnodup as [Hfresh Hnodup].
    apply elem_of_cons in Hin as [[= <- <-] | Hin].
    + rewrite filter_cons_True by done. f_equal.
      by apply no_entry_for_fresh_key.
    + rewrite filter_cons_False; [ by apply IH | ].
      simpl. intros ->. apply Hfresh.
      apply list_elem_of_fmap. by exists (k, v).
Qed.

(** Among entries kept under the lowered form of their names, the
    headers whose name is some spelling of [key] are the entries kept
    under [key]. *)
Lemma filter_items_by_name (l : list (string * (string * string))) (key : string) :
  Forall (λ e, e.1 = CaseInsensitiveDict.lower e.2.1) l →
  filter (λ h : string * string, CaseInsensitiveDict.lower h.1 = key) (l.*2)
  = (filter (λ e, e.1 = key) l).*2.
Proof.
  induction 1 as [|[k [name value]] l Hk Hl IH]; [ reflexivity | ].
  simpl in Hk. subst k. rewrite fmap_cons. simpl.
  destruct (decide (CaseInsensitiveDict.lower name = key)) as [Heq | Hne].
  - rewrite !filter_cons_True by done. rewrite fmap_cons. simpl. by rewrite IH.
  - rewrite !filter_cons_False by done. exact IH.
Qed.

(** C6: applied to a request, the signer made of [identifier] and
    [secret_key] sets the header [Authorization] to exactly
    ["ApiKey identifier:secret_key"], under every spelling of the name
    (header names do not distinguish case), and changes nothing else.
    The signed request has exactly one header of that name, spelled
    [Authorization], also when the request already had one under
    another spelling; every header of another name, with its spelling
    and value, and the method, url, body and timeout stay as they were.
    Applying the signer again changes nothing; it signs every request
    of any list the same way; and a signer with other credentials
    writes its own value, the header being computed from the signer's
    fields at each application. *)
Theorem signer_sets_authorization_header
    (identifier secret_key : string) (request : Request.t) :
  let signer := TermiusAuth.__init__ (PyStr identifier) (PyStr secret_key) in
  let signed := TermiusAuth.__call__ signer request in
  TermiusAuth.auth_header signer = "ApiKey " +:+ identifier +:+ ":" +:+ secret_key
  ∧ Request.headers signed !! "Authorization"
    = Some ("ApiKey " +:+ identifier +:+ ":" +:+ secret_key)
  ∧ (∀ name, CaseInsensitiveDict.lower name = "authorization" →
       Request.headers signed !! name
       = Some ("ApiKey " +:+ identifier +:+ ":" +:+ secret_key))
  ∧ filter (λ entry, entry.1 = "authorization")
           (map_to_list (CaseInsensitiveDict.store (Request.headers signed)))
    = [("authorization",
        ("Authorization", "ApiKey " +:+ identifier +:+ ":" +:+ secret_key))]
  ∧ (CaseInsensitiveDict.wf (Request.headers request) →
       CaseInsensitiveDict.wf (Request.headers signed)
       ∧ filter (λ h, CaseInsensitiveDict.lower h.1 = "authorization")
                (CaseInsensitiveDict.items (Request.headers signed))
         = [("Authorization", "ApiKey " +:+ identifier +:+ ":" +:+ secret_key)])
  ∧ (∀ name, CaseInsensitiveDict.lower name ≠ "authorization" →
       Request.headers signed !! name = Request.headers request !! name)
  ∧ delete "authorization" (CaseInsensitiveDict.store (Request.headers signed))
    = delete "authorization" (CaseInsensitiveDict.store (Request.headers request))
  ∧ Request.method signed = Request.method request
  ∧ Request.url signed = Request.url request
  ∧ Request.body signed = Request.body request
  ∧ Request.timeout signed = Request.timeout request
  ∧ TermiusAuth.__call__ signer signed = signed
  ∧ (∀ requests : list Request.t,
       Forall (λ q, Request.headers q !! "Authorization"
                    = Some ("ApiKey " +:+ identifier +:+ ":" +:+ secret_key))
              (map (TermiusAuth.__call__ signer) requests))
  ∧ (∀ identifier' secret_key' : string,
       Request.headers
         (TermiusAuth.__call__
            (TermiusAuth.__init__ (PyStr identifier') (PyStr secret_key')) signed)
         !! "Authorization"
       = Some ("ApiKey " +:+ identifier' +:+ ":" +:+ secret_key')).
Proof.
  intros signer signed. subst signed signer.
  assert (Hheader : ∀ i k, TermiusAuth.auth_header (TermiusAuth.__init__ (PyStr i) (PyStr k))
                           = "ApiKey " +:+ i +:+ ":" +:+ k).
  { intros i k. unfold TermiusAuth.auth_header. simpl. by rewrite !py_format_str. }
  assert (Hsigned : ∀ i k q,
    Request.headers (TermiusAuth.__call__ (TermiusAuth.__init__ (PyStr i) (PyStr k)) q)
    = <["Authorization" := "ApiKey " +:+ i +:+ ":" +:+ k]> (Request.headers q)).
  { intros i k q. unfold TermiusAuth.__call__. cbn [Request.headers].
    by rewrite Hheader. }
  assert (Hset : ∀ i k q,
    Request.headers (TermiusAuth.__call__ (TermiusAuth.__init__ (PyStr i) (PyStr k)) q)
      !! "Authorization" = Some ("ApiKey " +:+ i +:+ ":" +:+ k)).
  { intros i k q. rewrite Hsigned. apply headers_lookup_insert_eq. }
  assert (Hone : filter (λ entry, entry.1 = "authorization")
                   (map_to_list (CaseInsensitiveDict.store (Request.headers
                      (TermiusAuth.__call__
                         (TermiusAuth.__init__ (PyStr identifier) (PyStr secret_key))
                         request))))
                 = [("authorization",
                     ("Authorization", "ApiKey " +:+ identifier +:+ ":" +:+ secret_key))]).
  { apply one_entry_per_key; [ apply NoDup_fst_map_to_list | ].
    apply elem_of_map_to_list. rewrite Hsigned, headers_store_insert.
    apply lookup_insert_eq. }
  split; [ apply Hheader | ].
  split; [ apply Hset | ].
  split.
  { intros name Hname. rewrite Hsigned, headers_lookup_insert.
    by rewrite decide_True. }
  split; [ exact Hone | ].
  split.
  { intros Hwf.
    assert (Hwf' : CaseInsensitiveDict.wf (Request.headers
              (TermiusAuth.__call__
                 (TermiusAuth.__init__ (PyStr identifier) (PyStr secret_key)) request))).
    { rewrite Hsigned. by apply headers_wf_insert. }
    split; [ exact Hwf' | ].
    unfold CaseInsensitiveDict.items. rewrite filter_items_by_name.
    - by rewrite Hone.
    - apply Forall_forall. intros [key [name value]] Hin. simpl.
      apply elem_of_map_to_list in Hin. by apply Hwf' in Hin. }
  split.
  { intros name Hname. rewrite Hsigned, headers_lookup_insert.
    by rewrite decide_False. }
  split.
  { rewrite Hsigned, headers_store_insert. apply delete_insert_eq. }
  do 4 (split; [ reflexivity | ]).
  split.
  { unfold TermiusAuth.__call__. cbn [Request.headers Request.method
      Request.url Request.body Request.timeout]. by rewrite headers_insert_insert. }
  split; [ | intros; apply Hset ].
  intros requests. apply Forall_forall. intros q Hq.
  apply list_elem_of_In, in_map_iff in Hq. destruct Hq as (q0 & <- & _).
  apply Hset.
Qed.

(** C7, as amended: a call that fails on an unexpected status raises
    [AssertionError] with the response's raw body text as its message,
    and with nothing else: two responses with the same text make the
    same failure, whatever their statuses. *)
Theorem unexpected_status_carries_body_text
    (op : operation) (w : world) (r : Response) (rest : list reply) :
  inbox w = Responded r :: rest →
  status_code r ≠ 490 →
  status_code r ∉ acceptable op →
  (is_login op → status_code r ≠ 487) →
  (call op w).1 = Raise (AssertionError (text r))
  ∧ ∀ w' r' rest',
      inbox w' = Responded r' :: rest' →
      status_code r' ≠ 490 →
      status_code r' ∉ acceptable op →
      (is_login op → status_code r' ≠ 487) →
      text r' = text r →
      (call op w').1 = (call op w).1.
Proof.
  assert (Hone : ∀ w0 r0 rest0,
    inbox w0 = Responded r0 :: rest0 →
    status_code r0 ≠ 490 →
    status_code r0 ∉ acceptable op →
    (is_login op → status_code r0 ≠ 487) →
    (call op w0).1 = Raise (AssertionError (text r0))).
  { intros w0 r0 rest0 Hin H490 Hnot H487.
    destruct op as [email password token | | | | ].
    2-5: rewrite (crud_outcome _ w0 r0 rest0) by (done || by intros []).
    2-5: by rewrite !decide_False.
    simpl call. rewrite (login_outcome _ _ _ _ _ _ Hin).
    rewrite (decide_False (P := status_code r0 = 487)) by exact (H487 I).
    by rewrite !decide_False. }
  intros Hin H490 Hnot H487. split.
  - by apply (Hone w r rest).
  - intros w' r' rest' Hin' H490' Hnot' H487' Htext.
    rewrite (Hone w r rest), (Hone w' r' rest') by done. by rewrite Htext.
Qed.

Lemma hexchar_is_hexdigit (x : Z) : is_hexdigit (hashlib.hexchar x) = true.
Proof.
  unfold is_hexdigit, hashlib.hexchar. apply bool_decide_eq_true.
  apply list_elem_of_In, nth_In.
  change 15 with (Z.ones 4). rewrite Z.land_ones by lia.
  pose proof (Z.mod_pos_bound x (2 ^ 4) ltac:(lia)) as Hbound.
  change (length hashlib.hexdigits) with 16%nat. lia.
Qed.

Lemma hexdigest_length (s : hashlib.regs) : String.length (hashlib.hexdigest s) = 64%nat.
Proof. reflexivity. Qed.

Lemma hexdigest_hexdigits (s : hashlib.regs) :
  Forall (λ c, is_hexdigit c = true) (list_ascii_of_string (hashlib.hexdigest s)).
Proof.
  unfold hashlib.hexdigest, hashlib.hex32. cbn [list_ascii_of_string].
  repeat (constructor; [ apply hexchar_is_hexdigit | ]). constructor.
Qed.

(** A text is encoded exactly when all its code points are below
    256, and then byte by byte. *)
Lemma six_b_cases (s : unicode) :
  (Forall (λ c, (c < 256)%N) s →
   ∃ bytes, six.b s = Return bytes ∧ Forall2 (λ c b, Byte.to_N b = c) s bytes)
  ∧ (¬ Forall (λ c, (c < 256)%N) s → six.b s = Raise UnicodeEncodeError).
Proof.
  unfold six.b. destruct (mapM Byte.of_N s) as [bytes|] eqn:Hmap.
  - apply mapM_Some_1 in Hmap.
    assert (Hbytes : Forall2 (λ c b, Byte.to_N b = c) s bytes).
    { eapply Forall2_impl; [ exact Hmap | ]. intros c b. apply Byte.to_of_N. }
    split; [ by exists bytes | ].
    intros Hnot. exfalso. apply Hnot.
    clear Hmap Hnot. induction Hbytes as [|c b s bytes Heq _ IH]; constructor; [ | exact IH ].
    subst c. pose proof (Byte.to_N_bounded b). lia.
  - split; [ | done ].
    intros Hall. exfalso.
    apply mapM_None_1, Exists_exists in Hmap. destruct Hmap as (c & Hin & Hnone).
    apply Byte.of_N_None_iff in Hnone.
    rewrite Forall_forall in Hall. specialize (Hall c Hin). lia.
Qed.

(** C8, on the code: [hash_password] returns a digest only for a
    password whose code points are all below 256. It then is the
    hexadecimal SHA-256 digest of the bytes that have the ordinals of
    the characters, a string of 64 hexadecimal digits, and for the empty
    password the well-known digest of the empty message. For any other
    password, the euro sign for one, [six.b] raises
    [UnicodeEncodeError] and no digest is made. *)
Theorem hash_password_digest_or_encode_error (password : unicode) :
  (Forall (λ c, (c < 256)%N) password →
   ∃ bytes hex,
     Forall2 (λ c b, Byte.to_N b = c) password bytes
     ∧ hash_password password = Return hex
     ∧ hex = hashlib.hexdigest (hashlib.sha256 bytes)
     ∧ String.length hex = 64%nat
     ∧ Forall (λ c, is_hexdigit c = true) (list_ascii_of_string hex))
  ∧ (¬ Forall (λ c, (c < 256)%N) password →
     hash_password password = Raise UnicodeEncodeError)
  ∧ hash_password []
    = Return "e3b0c44298fc1c149afbf4c8996fb92427ae41e4649b934ca495991b7852b855"
  ∧ hash_password [8364%N] = Raise UnicodeEncodeError.
Proof.
  destruct (six_b_cases password) as [Hok Hfail].
  split; [ | split; [ | split ] ].
  - intros Hall. destruct (Hok Hall) as (bytes & Hb & Hbytes).
    exists bytes, (hashlib.hexdigest (hashlib.sha256 bytes)).
    split; [ exact Hbytes | ].
    split; [ unfold hash_password; by rewrite Hb | ].
    split; [ reflexivity | ].
    split; [ apply hexdigest_length | apply hexdigest_hexdigits ].
  - intros Hnot. unfold hash_password. by rewrite (Hfail Hnot).
  - vm_compute. reflexivity.
  - vm_compute. reflexivity.
Qed.

(** C9: get, post, put and delete leave the client's signer as it was,
    whatever the network answers (a response of any status or none) and
    whether they return or raise; [set_auth] replaces it. *)
Theorem crud_leaves_signer_unchanged (w : world) (endpoint : string) (data : pyobj) :
  self (API.get endpoint w).2 = self w
  ∧ self (API.post endpoint data w).2 = self w
  ∧ self (API.put endpoint data w).2 = self w
  ∧ self (API.delete endpoint w).2 = self w
  ∧ ∀ username apikey,
      self (API.set_auth username apikey w).2
      = {| auth := Some {| TermiusAuth.username := username;
                           TermiusAuth.apikey := apikey |} |}.
Proof.
  repeat split; run.
  all: destruct (inbox w) as [|[r|] rest]; simpl; try reflexivity.
  all: repeat (case_decide; simpl); try reflexivity.
  all: by destruct (json_loads (text r)).
Qed.

(** C10: constructed with credentials that are each [None] or a text,
    the client has no signer exactly when one of them is [None] or the
    empty text, and otherwise the signer made of the two; [set_auth]
    installs a signer whatever its arguments are, empty ones included. *)
Theorem init_signer_iff_both_credentials (username apikey : option string) (w : world) :
  (auth (API.__init__ (of_option username) (of_option apikey)) = None
   ↔ username = None ∨ username = Some "" ∨ apikey = None ∨ apikey = Some "")
  ∧ (auth (API.__init__ (of_option username) (of_option apikey)) = None
     ∨ auth (API.__init__ (of_option username) (of_option apikey))
       = Some {| TermiusAuth.username := of_option username;
                 TermiusAuth.apikey := of_option apikey |})
  ∧ (∀ u k : pyobj,
       auth (self (API.set_auth u k w).2)
       = Some {| TermiusAuth.username := u; TermiusAuth.apikey := k |})
  ∧ auth (self (API.set_auth (PyStr "") (PyStr "") w).2) ≠ None
  ∧ auth (self (API.set_auth PyNone PyNone w).2) ≠ None.
Proof.
  repeat split; try done.
  - unfold API.__init__.
    destruct username as [u|], apikey as [k|]; simpl;
      rewrite ?py_bool_str, ?py_bool_None, ?andb_false_r; simpl; auto.
    destruct (String.eqb_spec u ""), (String.eqb_spec k ""); simpl; subst; auto.
    all: discriminate.
  - intros [-> | [-> | [-> | ->]]]; unfold API.__init__; simpl;
      rewrite ?py_bool_str, ?py_bool_None, ?andb_false_r; simpl; done.
  - unfold API.__init__. destruct (_ && _); auto.
Qed.

End Properties.

(** * The client on concrete inputs *)

Import Sample.

(** The constants of SHA-256, at both ends of their tables. *)
Example sha256_constants :
  length hashlib.K = 64%nat
  ∧ head hashlib.K = Some 0x428a2f98
  ∧ last hashlib.K = Some 0xc67178f2
  ∧ hashlib.ra hashlib.H0 = 0x6a09e667
  ∧ hashlib.rh hashlib.H0 = 0x5be0cd19.
Proof. vm_compute. repeat split. Qed.

(** SHA-256 of ["abc"], the first test vector of FIPS 180-4. *)
Example sha256_abc :
  hash_password (latin1 "abc")
  = Return "ba7816bf8f01cfea414140de5dae2223b00361a396177a9cb410ff61f20015ad".
Proof. vm_compute. reflexivity. Qed.

Example loads_token_body : json_loads token_body = Some (PyDict token_entries).
Proof. vm_compute. reflexivity. Qed.

(** C1, the claim as worded fails: a get answered with status 200 and a
    body that is not JSON has an acceptable status and does not return. *)
Lemma accepted_status_may_not_return :
  (call (Get "hosts/") (fresh anonymous [answer 200 "<html>"])).1 = Raise ValueError
  ∧ ¬ returns_iff_acceptable.
Proof.
  split; [ vm_compute; reflexivity | ].
  intros Hclaim.
  destruct (Hclaim (Get "hosts/") (fresh anonymous [answer 200 "<html>"])
              {| status_code := 200; text := "<html>" |} []) as [_ Hret];
    [ reflexivity | discriminate | intros [] | ].
  destruct Hret as [o Ho]; [ simpl; set_solver | ].
  vm_compute in Ho. discriminate.
Qed.

(** A post answered with 200 instead of 201 raises the assertion. *)
Lemma post_200_is_unexpected :
  (call (Post "hosts/" (PyDict ∅)) (fresh anonymous [answer 200 "{}"])).1
  = Raise (AssertionError "{}").
Proof.
  refine (proj1 (status_classification (Post "hosts/" (PyDict ∅))
                   (fresh anonymous [answer 200 "{}"])
                   {| status_code := 200; text := "{}" |} [] eq_refl _ _) _).
  - discriminate.
  - intros [].
  - apply not_elem_of_statuses. repeat constructor. discriminate.
Defined.

(** A login answered with 490. *)
Lemma login_490_is_outdated :
  (call (Login "a@b.com" "secret" None) (fresh anonymous [answer 490 ""])).1
  = Raise (OutdatedVersion outdated_message).
Proof.
  exact (proj1 (status_490_raises_outdated_version (Login "a@b.com" "secret" None)
                  (fresh anonymous [answer 490 ""])
                  {| status_code := 490; text := "" |} [] eq_refl eq_refl)).
Defined.

(** A login answered with 487: what the exception carries is the method,
    and the client stays without signer. *)
Lemma login_487_carries_the_method :
  (API.login "a@b.com" (latin1 "secret") None (fresh anonymous [answer 487 "{}"])).1
  = Raise (AuthyTokenIssue (PyMethod_json {| status_code := 487; text := "{}" |}))
  ∧ self (API.login "a@b.com" (latin1 "secret") None (fresh anonymous [answer 487 "{}"])).2
    = anonymous
  ∧ PyMethod_json {| status_code := 487; text := "{}" |} ≠ PyStr "{}".
Proof.
  exact (login_487_raises_authy_token_issue "a@b.com" "secret" None
           (fresh anonymous [answer 487 "{}"])
           {| status_code := 487; text := "{}" |} [] eq_refl eq_refl).
Defined.

(** The specification's example: after a login of [a@b.com] answered
    with 200 and [{"token": "abc123"}], a get carries the header
    [Authorization: ApiKey a@b.com:abc123]. *)
Lemma login_then_get_is_signed :
  ∃ q, wire (call (Get "hosts/")
               (API.login "a@b.com" (latin1 "secret") None
                  (fresh anonymous [answer 200 token_body])).2).2
       = wire (API.login "a@b.com" (latin1 "secret") None
                 (fresh anonymous [answer 200 token_body])).2 ++ [q]
       ∧ Request.headers q !! "Authorization" = Some "ApiKey a@b.com:abc123".
Proof.
  destruct (login_success "a@b.com" "secret" None
              (fresh anonymous [answer 200 token_body])
              {| status_code := 200; text := token_body |} []
              token_entries (PyStr "abc123")
              eq_refl eq_refl loads_token_body eq_refl)
    as (fields & _ & _ & _ & _ & _ & _ & _ & Hnext & _).
  exact (Hnext (Get "hosts/") _ eq_refl (λ x, x)).
Defined.

(** A delete answered with 204 and no body. *)
Lemma delete_204_raises :
  204 ∈ acceptable (Delete "hosts/1/")
  ∧ (API.delete "hosts/1/" (fresh anonymous [answer 204 ""])).1 = Raise ValueError.
Proof.
  exact (delete_204_empty_body_raises "hosts/1/" (fresh anonymous [answer 204 ""])
           {| status_code := 204; text := "" |} [] eq_refl eq_refl eq_refl).
Defined.

(** C7, the claim as worded fails: a get answered with 404 and one
    answered with 500, both with the body [gone], raise the same
    exception, so no status can be read off it. *)
Lemma failure_does_not_carry_status :
  (call (Get "hosts/") (fresh anonymous [answer 404 "gone"])).1
  = Raise (AssertionError "gone")
  ∧ (call (Get "hosts/") (fresh anonymous [answer 500 "gone"])).1
    = Raise (AssertionError "gone")
  ∧ ¬ ∃ status_of, carries_status status_of.
Proof.
  split; [ vm_compute; reflexivity | ].
  split; [ vm_compute; reflexivity | ].
  intros [status_of Hcarries].
  assert (H404 : status_of (AssertionError "gone") = 404).
  { apply (Hcarries (Get "hosts/") (fresh anonymous [answer 404 "gone"])
             {| status_code := 404; text := "gone" |} []);
      [ reflexivity | discriminate
      | apply not_elem_of_statuses; repeat constructor; discriminate
      | intros [] | ].
    vm_compute. reflexivity. }
  assert (H500 : status_of (AssertionError "gone") = 500).
  { apply (Hcarries (Get "hosts/") (fresh anonymous [answer 500 "gone"])
             {| status_code := 500; text := "gone" |} []);
      [ reflexivity | discriminate
      | apply not_elem_of_statuses; repeat constructor; discriminate
      | intros [] | ].
    vm_compute. reflexivity. }
  congruence.
Qed.

(** A get answered with 404 raises with the body as message. *)
Lemma get_404_carries_the_body :
  (call (Get "hosts/") (fresh anonymous [answer 404 "gone"])).1
  = Raise (AssertionError "gone").
Proof.
  refine (proj1 (unexpected_status_carries_body_text (Get "hosts/")
                   (fresh anonymous [answer 404 "gone"])
                   {| status_code := 404; text := "gone" |} [] eq_refl _ _ _)).
  - discriminate.
  - apply not_elem_of_statuses. repeat constructor. discriminate.
  - intros [].
Defined.

(** * Further properties of the client *)

Section Further.
Context `{Runtime}.

(** Splits every test and match a run of the client goes through. *)
Ltac branches := repeat (case_match; simpl in *; simplify_eq); try done.

(** X1: [request_url] puts the endpoint, unchanged, behind the fixed
    base: nothing is normalised (a leading slash is kept, giving a
    double one), and different endpoints give different urls. *)
Theorem request_url_appends_endpoint (endpoint other : string) :
  API.request_url endpoint = "https://api.termius.com/api/" +:+ endpoint
  ∧ String.length (API.request_url endpoint) = (28 + String.length endpoint)%nat
  ∧ (API.request_url endpoint = API.request_url other ↔ endpoint = other)
  ∧ API.request_url ("/" +:+ endpoint) = "https://api.termius.com/api//" +:+ endpoint.
Proof.
  split; [ reflexivity | ].
  split; [ reflexivity | ].
  split; [ | reflexivity ].
  split; [ | intros Heq; by subst ].
  unfold API.request_url. simpl. intros [= Heq]. exact Heq.
Qed.

(** X2: without statuses of its own ([None], or an empty tuple, which
    [or] treats alike) [__check_response] accepts exactly 200, 201, 202
    and 204; whatever statuses it is given it never accepts 490 and
    never changes the world. *)
Theorem check_response_default_statuses (r : Response) (w : world) :
  API.__check_response r (Some []) w = API.__check_response r None w
  ∧ ((API.__check_response r None w).1 = Return tt
     ↔ status_code r ∈ [200; 201; 202; 204])
  ∧ (∀ statuses, (API.__check_response r statuses w).1 = Return tt →
       status_code r ≠ 490)
  ∧ (∀ statuses, (API.__check_response r statuses w).2 = w).
Proof.
  split; [ reflexivity | ].
  split; [ | split ].
  - unfold API.__check_response, raise, mret, M_ret.
    split.
    + intros Hret. branches.
    + intros Hin. rewrite decide_False; [ by rewrite decide_True | ].
      intros H490. rewrite H490 in Hin. revert Hin.
      apply not_elem_of_statuses. repeat constructor; discriminate.
  - intros statuses. unfold API.__check_response, raise, mret, M_ret.
    intros Hret. branches.
  - intros statuses. unfold API.__check_response, raise, mret, M_ret. branches.
Qed.

(** X3: get, post, put and delete hand exactly one request to the HTTP
    layer and take its one answer, whether they return or raise.
    [login] does the same when the password can be encoded, that is
    when its code points are all below 256; when it cannot, [login]
    raises [UnicodeEncodeError] from hashing the password, before any
    request is made, and leaves the world as it was. *)
Theorem requests_handed_over_per_call
    (w : world) (endpoint : string) (data : pyobj)
    (email : string) (password : unicode) (authy_token : option string) :
  (∀ op, op ∈ [Get endpoint; Post endpoint data; Put endpoint data; Delete endpoint] →
     ∃ q, wire (call op w).2 = wire w ++ [q]
          ∧ inbox (call op w).2 = tail (inbox w))
  ∧ (Forall (λ c, (c < 256)%N) password →
     ∃ q, wire (API.login email password authy_token w).2 = wire w ++ [q]
          ∧ inbox (API.login email password authy_token w).2 = tail (inbox w))
  ∧ (¬ Forall (λ c, (c < 256)%N) password →
     API.login email password authy_token w = (Raise UnicodeEncodeError, w)).
Proof.
  destruct (six_b_cases password) as [Hok Hfail].
  split; [ | split ].
  - intros op Hop.
    repeat (apply elem_of_cons in Hop as [-> | Hop]); [ .. | by apply elem_of_nil in Hop ].
    all: run; destruct (auth (self w)), (inbox w) as [|[r|] rest]; simpl.
    all: eexists; branches.
  - intros Hall. destruct (Hok Hall) as (bytes & Hb & _).
    unfold API.login, hash_password. rewrite Hb. run.
    destruct authy_token, (inbox w) as [|[r|] rest]; simpl.
    all: eexists; branches.
  - intros Hnot.
    unfold API.login, hash_password, lift, mbind, M_bind. by rewrite (Hfail Hnot).
Qed.

(** X4: what get, post, put and delete put on the wire, whatever the
    network answers: the method of the operation, the base url followed
    by the endpoint, the data as a JSON body for post and put and no
    body for get and delete, a timeout of 180 for get, post and put and
    none for delete; the only header is [Authorization], present
    exactly when the client has a signer. *)
Theorem crud_requests_on_the_wire (w : world) (endpoint : string) (data : pyobj) :
  let bare (m : http_method) (b : payload) (t : option Z) :=
    {| Request.method := m;
       Request.url := "https://api.termius.com/api/" +:+ endpoint;
       Request.headers :=
         match auth (self w) with
         | Some a => {[ "Authorization" := TermiusAuth.auth_header a ]}
         | None => ∅
         end;
       Request.body := b;
       Request.timeout := t |} in
  wire (API.get endpoint w).2 = wire w ++ [bare GET NoBody (Some 180)]
  ∧ wire (API.post endpoint data w).2 = wire w ++ [bare POST (JsonData data) (Some 180)]
  ∧ wire (API.put endpoint data w).2 = wire w ++ [bare PUT (JsonData data) (Some 180)]
  ∧ wire (API.delete endpoint w).2 = wire w ++ [bare DELETE NoBody None].
Proof.
  intros bare. unfold bare. repeat split; run.
  all: destruct (auth (self w)), (inbox w) as [|[r|] rest]; simpl.
  all: unfold TermiusAuth.__call__; simpl; rewrite ?insert_empty; branches.
Qed.

(** X5: the login request never carries the client's signer, whatever
    signer the client has and whatever the network answers: for a
    password that can be encoded it is a POST to the login endpoint
    without headers and without timeout, whose form fields are the
    email, what [hash_password] returns for the password (64
    characters, whatever the password) and the second factor exactly
    when one is given. *)
Theorem login_request_is_unsigned
    (email password : string) (authy_token : option string) (w : world) :
  ∃ fields,
    wire (API.login email (latin1 password) authy_token w).2
      = wire w ++ [ {| Request.method := POST;
                       Request.url := "https://api.termius.com/api/v3.1/login/";
                       Request.headers := ∅;
                       Request.body := FormData fields;
                       Request.timeout := None |} ]
    ∧ fields !! "email" = Some email
    ∧ fields !! "authy_token" = authy_token
    ∧ (∃ hex, fields !! "password" = Some hex
              ∧ hash_password (latin1 password) = Return hex
              ∧ String.length hex = 64%nat)
    ∧ size fields = match authy_token with Some _ => 3%nat | None => 2%nat end.
Proof.
  assert (Hwire : ∃ fields,
    wire (API.login email (latin1 password) authy_token w).2
      = wire w ++ [ {| Request.method := POST;
                       Request.url := "https://api.termius.com/api/v3.1/login/";
                       Request.headers := ∅;
                       Request.body := FormData fields;
                       Request.timeout := None |} ]
    ∧ fields = match authy_token with
               | Some code =>
                   <["authy_token" := code]>
                     (<["email" := email]> (<["password" := digest password]> ∅))
               | None => <["email" := email]> (<["password" := digest password]> ∅)
               end).
  { eexists. split; [ | reflexivity ].
    run. destruct authy_token, (inbox w) as [|[r|] rest]; simpl; branches. }
  destruct Hwire as (fields & Hwire & ->). eexists. split; [ exact Hwire | ].
  destruct authy_token as [code|].
  all: split; [ by simplify_map_eq | ].
  all: split; [ by simplify_map_eq | ].
  all: split; [ eexists; split; [ by simplify_map_eq | ];
                split; [ apply hash_password_latin1 | apply hexdigest_length ] | ].
  all: rewrite !map_size_insert_None by by simplify_map_eq.
  all: by rewrite map_size_empty.
Qed.

(** X6: [login] changes the signer exactly when it returns. A login
    that raises (a password that cannot be encoded, no response, a
    status other than 200, a body that is not JSON, not an object or
    without ["token"]) leaves the client object as it was; a login that returns hands back an object with a
    ["token"] entry and has installed the signer made of the email and
    that token. *)
Theorem login_changes_signer_iff_it_returns
    (email : string) (password : unicode) (authy_token : option string) (w : world) :
  match (API.login email password authy_token w).1 with
  | Return o =>
      ∃ entries token,
        o = PyDict entries ∧ entries !! "token" = Some token
        ∧ self (API.login email password authy_token w).2
          = {| auth := Some {| TermiusAuth.username := PyStr email;
                               TermiusAuth.apikey := token |} |}
  | Raise _ => self (API.login email password authy_token w).2 = self w
  end.
Proof.
  unfold API.login, lift, mbind, M_bind.
  destruct (hash_password password) as [hex|e]; [ | reflexivity ].
  run. destruct (inbox w) as [|[r|] rest]; simpl; branches.
  all: eauto.
Qed.

(** X7: a login that gets as far as its request (its password can be
    encoded) writes one warning, ["Can not login!"], to the logger
    exactly when the response has a status other than 200 and 487
    (490 included), and nothing when there is no response. *)
Theorem login_warns_on_other_statuses
    (email password : string) (authy_token : option string)
    (o : API_object) (sent : list Request.t) (log : list (level * string))
    (r : Response) (rest : list reply) :
  journal (API.login email (latin1 password) authy_token
             {| self := o; wire := sent; inbox := Responded r :: rest; journal := log |}).2
    = (if decide (status_code r = 200 ∨ status_code r = 487)
       then log else log ++ [(WARNING, "Can not login!")])
  ∧ journal (API.login email (latin1 password) authy_token
               {| self := o; wire := sent; inbox := NoResponse :: rest; journal := log |}).2
    = log
  ∧ journal (API.login email (latin1 password) authy_token
               {| self := o; wire := sent; inbox := []; journal := log |}).2
    = log.
Proof.
  repeat split; run; branches.
  all: exfalso; lia.
Qed.

(** X8: of the four other operations only post writes to the logger:
    ["send post"] before the request and, when a response arrives,
    ["get response = "] followed by its status in decimal, both at
    debug level; get, put and delete write nothing. *)
Theorem only_post_logs (w : world) (endpoint : string) (data : pyobj) :
  journal (API.get endpoint w).2 = journal w
  ∧ journal (API.put endpoint data w).2 = journal w
  ∧ journal (API.delete endpoint w).2 = journal w
  ∧ journal (API.post endpoint data w).2
    = journal w ++ (DEBUG, "send post")
        :: match inbox w with
           | Responded r :: _ => [(DEBUG, "get response = " +:+ pretty (status_code r))]
           | _ => []
           end.
Proof.
  repeat split; run.
  all: destruct (inbox w) as [|[r|] rest]; simpl; branches.
  all: by rewrite <- app_assoc.
Qed.

(** X9: when the network gives no response, every operation raises
    [RequestException] and leaves the client object as it was. *)
Theorem no_response_raises
    (op : operation) (o : API_object) (sent : list Request.t)
    (log : list (level * string)) (rest : list reply) :
  (call op {| self := o; wire := sent; inbox := NoResponse :: rest; journal := log |}).1
    = Raise RequestException
  ∧ self (call op {| self := o; wire := sent; inbox := NoResponse :: rest;
                     journal := log |}).2 = o
  ∧ (call op {| self := o; wire := sent; inbox := []; journal := log |}).1
    = Raise RequestException
  ∧ self (call op {| self := o; wire := sent; inbox := []; journal := log |}).2 = o.
Proof.
  destruct op; repeat split; run; branches.
Qed.

(** X10: what a login (with a password that can be encoded) answered
    with status 200 makes of the body: a
    body that is not JSON raises [ValueError], a JSON value that is not
    an object raises [TypeError], an object without ["token"] raises
    [KeyError], and only an object with ["token"] is returned. *)
Theorem login_200_body_cases
    (email password : string) (authy_token : option string)
    (o : API_object) (sent : list Request.t) (log : list (level * string))
    (body : string) (rest : list reply) :
  (API.login email (latin1 password) authy_token
     {| self := o; wire := sent;
        inbox := Responded {| status_code := 200; text := body |} :: rest;
        journal := log |}).1
  = match json_loads body with
    | None => Raise ValueError
    | Some (PyDict entries) =>
        match entries !! "token" with
        | Some _ => Return (PyDict entries)
        | None => Raise (KeyError "token")
        end
    | Some _ => Raise TypeError
    end.
Proof.
  run. branches.
Qed.

(** One step of a caller that is not a login. *)
Lemma crud_step (op : operation) (w : world) :
  ¬ is_login op →
  self (call op w).2 = self w
  ∧ ∃ q, wire (call op w).2 = wire w ++ [q]
         ∧ Request.headers q !! "Authorization"
           = TermiusAuth.auth_header <$> auth (self w).
Proof.
  intros Hop. split; [ | by apply crud_request ].
  destruct op; try (by destruct Hop); run.
  all: destruct (inbox w) as [|[r|] rest]; simpl; branches.
Qed.

(** X11: a caller that issues any sequence of gets, posts, puts and
    deletes, going on after failures, ends with the signer it started
    with, has sent one request per call, and every one of them carries
    the same [Authorization] header, that of the signer (none without
    signer). *)
Theorem crud_sequence_keeps_signer (ops : list operation) (w : world) :
  Forall (λ op, ¬ is_login op) ops →
  self (after ops w) = self w
  ∧ ∃ qs, wire (after ops w) = wire w ++ qs
          ∧ length qs = length ops
          ∧ Forall (λ q, Request.headers q !! "Authorization"
                         = TermiusAuth.auth_header <$> auth (self w)) qs.
Proof.
  intros Hops. revert w.
  induction Hops as [|op ops Hop Hops IH]; intros w.
  - split; [ reflexivity | ]. exists []. by rewrite app_nil_r.
  - destruct (crud_step op w Hop) as (Hself & q & Hwire & Hheader).
    destruct (IH (call op w).2) as (Hself' & qs & Hwire' & Hlen & Hall).
    unfold after in *. simpl. split; [ congruence | ].
    exists (q :: qs). split; [ | split ].
    + by rewrite Hwire', Hwire, <- app_assoc.
    + simpl. by rewrite Hlen.
    + constructor; [ done | ]. by rewrite <- Hself.
Qed.

(** X12: a client constructed with two non-empty texts signs the
    requests of its gets, posts, puts and deletes with them; constructed
    with a credential that is [None] or empty it sends them without
    [Authorization] header. *)
Theorem constructed_client_signs_requests
    (username apikey : option string) (op : operation)
    (sent : list Request.t) (replies : list reply) (log : list (level * string)) :
  ¬ is_login op →
  ∃ q, wire (call op {| self := API.__init__ (of_option username) (of_option apikey);
                        wire := sent; inbox := replies; journal := log |}).2
       = sent ++ [q]
       ∧ Request.headers q !! "Authorization"
         = match username, apikey with
           | Some u, Some k =>
               if bool_decide (u = "" ∨ k = "") then None
               else Some ("ApiKey " +:+ u +:+ ":" +:+ k)
           | _, _ => None
           end.
Proof.
  intros Hop.
  destruct (crud_step op {| self := API.__init__ (of_option username) (of_option apikey);
                            wire := sent; inbox := replies; journal := log |} Hop)
    as (_ & q & Hwire & Hheader).
  exists q. split; [ exact Hwire | ]. rewrite Hheader. simpl.
  unfold API.__init__.
  destruct username as [u|], apikey as [k|]; simpl;
    rewrite ?py_bool_str, ?py_bool_None, ?andb_false_r; simpl; try done.
  unfold TermiusAuth.auth_header.
  destruct (String.eqb_spec u ""), (String.eqb_spec k ""); simpl; subst.
  1-3: rewrite bool_decide_eq_true_2 by auto; done.
  rewrite bool_decide_eq_false_2 by (intros [|]; done).
  by rewrite !py_format_str.
Qed.

(** X13: [set_auth] sends nothing, takes no reply, logs nothing and
    cannot fail; after it, whatever signer the client had before, the
    requests of gets, posts, puts and deletes carry the header made of
    the new credentials. *)
Theorem set_auth_then_requests_are_signed
    (identifier secret_key : string) (op : operation) (w : world) :
  ¬ is_login op →
  (API.set_auth (PyStr identifier) (PyStr secret_key) w).1 = Return tt
  ∧ wire (API.set_auth (PyStr identifier) (PyStr secret_key) w).2 = wire w
  ∧ inbox (API.set_auth (PyStr identifier) (PyStr secret_key) w).2 = inbox w
  ∧ journal (API.set_auth (PyStr identifier) (PyStr secret_key) w).2 = journal w
  ∧ ∃ q, wire (call op (API.set_auth (PyStr identifier) (PyStr secret_key) w).2).2
         = wire w ++ [q]
         ∧ Request.headers q !! "Authorization"
           = Some ("ApiKey " +:+ identifier +:+ ":" +:+ secret_key).
Proof.
  intros Hop. repeat split.
  destruct (crud_step op (API.set_auth (PyStr identifier) (PyStr secret_key) w).2 Hop)
    as (_ & q & Hwire & Hheader).
  exists q. split; [ exact Hwire | ]. rewrite Hheader. simpl.
  unfold TermiusAuth.auth_header. simpl. by rewrite !py_format_str.
Qed.

(** X14: the second-factor handshake, for a password that can be
    encoded. A login answered with 487
    followed by a login with a code answered with 200 and a token:
    the first raises [AuthyTokenIssue] and leaves the client as it was,
    the second returns the body and installs the signer; the two
    requests differ only in the ["authy_token"] field, which only the
    second has; and nothing is written to the logger. *)
Theorem login_retry_with_second_factor
    (email password code : string)
    (o : API_object) (sent : list Request.t) (log : list (level * string))
    (r1 r2 : Response) (rest : list reply)
    (entries : gmap string pyobj) (token : pyobj) :
  status_code r1 = 487 →
  status_code r2 = 200 →
  json_loads (text r2) = Some (PyDict entries) →
  entries !! "token" = Some token →
  let w := {| self := o; wire := sent;
              inbox := Responded r1 :: Responded r2 :: rest; journal := log |} in
  let first := API.login email (latin1 password) None w in
  let second := API.login email (latin1 password) (Some code) first.2 in
  first.1 = Raise (AuthyTokenIssue (PyMethod_json r1))
  ∧ self first.2 = o
  ∧ second.1 = Return (PyDict entries)
  ∧ self second.2 = {| auth := Some {| TermiusAuth.username := PyStr email;
                                      TermiusAuth.apikey := token |} |}
  ∧ inbox second.2 = rest
  ∧ journal second.2 = log
  ∧ ∃ fields,
      wire second.2
        = sent ++ [ {| Request.method := POST;
                       Request.url := "https://api.termius.com/api/v3.1/login/";
                       Request.headers := ∅;
                       Request.body := FormData fields;
                       Request.timeout := None |};
                    {| Request.method := POST;
                       Request.url := "https://api.termius.com/api/v3.1/login/";
                       Request.headers := ∅;
                       Request.body := FormData (<["authy_token" := code]> fields);
                       Request.timeout := None |} ]
      ∧ fields !! "authy_token" = None.
Proof.
  intros H487 H200 Hdec Htoken w first second.
  unfold second, first, w. run. rewrite H487. simpl. rewrite H200. simpl.
  rewrite Hdec, Htoken. simpl.
  repeat split. eexists. split; [ by rewrite <- app_assoc | by simplify_map_eq ].
Qed.

Lemma string_append_assoc (a b c : string) : (a +:+ b) +:+ c = a +:+ (b +:+ c).
Proof.
  induction a as [|x a IH]; [ reflexivity | ].
  change (String x ((a +:+ b) +:+ c) = String x (a +:+ (b +:+ c))).
  by rewrite IH.
Qed.

(** Two texts without colon, each followed by a colon and a rest, are
    equal only part by part. *)
Lemma colon_splits (u u' k k' : string) :
  colon ∉ list_ascii_of_string u →
  colon ∉ list_ascii_of_string u' →
  u +:+ String colon k = u' +:+ String colon k' →
  u = u' ∧ k = k'.
Proof.
  revert u'. induction u as [|c u IH]; intros [|c' u'] Hu Hu' Heq.
  - change (String colon k = String colon k') in Heq. by injection Heq as ->.
  - change (String colon k = String c' (u' +:+ String colon k')) in Heq.
    injection Heq as <- _. exfalso. apply Hu'. by left.
  - change (String c (u +:+ String colon k) = String colon k') in Heq.
    injection Heq as -> _. exfalso. apply Hu. by left.
  - change (String c (u +:+ String colon k) = String c' (u' +:+ String colon k')) in Heq.
    injection Heq as -> Heq.
    apply not_elem_of_cons in Hu as [_ Hu]. apply not_elem_of_cons in Hu' as [_ Hu'].
    by destruct (IH u' Hu Hu' Heq) as [-> ->].
Qed.

(** X15: the header a signer renders determines its two credentials as
    long as the identifiers contain no colon; with a colon it does not:
    the signers of [(u:k, k')] and of [(u, k:k')] render the same
    header. *)
Theorem auth_header_and_colons (u k u' k' : string) :
  (colon ∉ list_ascii_of_string u →
   colon ∉ list_ascii_of_string u' →
   TermiusAuth.auth_header (TermiusAuth.__init__ (PyStr u) (PyStr k))
   = TermiusAuth.auth_header (TermiusAuth.__init__ (PyStr u') (PyStr k')) →
   u = u' ∧ k = k')
  ∧ TermiusAuth.auth_header (TermiusAuth.__init__ (PyStr (u +:+ ":" +:+ k)) (PyStr k'))
    = TermiusAuth.auth_header (TermiusAuth.__init__ (PyStr u) (PyStr (k +:+ ":" +:+ k'))).
Proof.
  unfold TermiusAuth.auth_header. simpl. rewrite !py_format_str. split.
  - intros Hu Hu' Heq.
    change ("ApiKey " +:+ (u +:+ String colon k) = "ApiKey " +:+ (u' +:+ String colon k'))
      in Heq.
    injection Heq as Heq. by apply colon_splits.
  - by rewrite string_append_assoc.
Qed.

(** X16: what a call returns or raises is decided by the reply alone:
    the same operation in two worlds whose next replies are the same
    has the same outcome, whatever the signers, the requests sent
    before and the logs are. *)
Theorem outcome_depends_on_reply_only (op : operation) (w w' : world) :
  head (inbox w) = head (inbox w') →
  (call op w).1 = (call op w').1.
Proof.
  intros Hhead. destruct op; run.
  all: destruct (inbox w) as [|[r|] rest], (inbox w') as [|[r'|] rest'];
    simpl in *; simplify_eq; branches.
Qed.

End Further.

(** * The further properties on concrete inputs *)

(** Four calls in a row, the second and the fourth failing: the signer
    stays and the four requests carry its header. *)
Lemma four_calls_keep_the_signer :
  self (after [Get "hosts/"; Post "hosts/" (PyDict ∅); Delete "hosts/1/";
               Put "hosts/1/" (PyDict ∅)]
          (fresh signed_in [answer 200 "{}"; answer 500 "oops"; answer 200 "{}"]))
  = signed_in
  ∧ ∃ qs,
      wire (after [Get "hosts/"; Post "hosts/" (PyDict ∅); Delete "hosts/1/";
                   Put "hosts/1/" (PyDict ∅)]
              (fresh signed_in [answer 200 "{}"; answer 500 "oops"; answer 200 "{}"]))
      = [] ++ qs
      ∧ length qs = 4%nat
      ∧ Forall (λ q, Request.headers q !! "Authorization"
                     = Some "ApiKey a@b.com:abc123") qs.
Proof.
  assert (Hops : Forall (λ op, ¬ is_login op)
                   [Get "hosts/"; Post "hosts/" (PyDict ∅); Delete "hosts/1/";
                    Put "hosts/1/" (PyDict ∅)])
    by (repeat constructor; intros []).
  exact (crud_sequence_keeps_signer _
           (fresh signed_in [answer 200 "{}"; answer 500 "oops"; answer 200 "{}"])
           Hops).
Defined.

(** A client constructed with both credentials signs its get. *)
Lemma constructed_client_signs_a_get :
  ∃ q, wire (call (Get "hosts/")
               {| self := API.__init__ (PyStr "a@b.com") (PyStr "abc123");
                  wire := []; inbox := [answer 200 "{}"]; journal := [] |}).2
       = [] ++ [q]
       ∧ Request.headers q !! "Authorization" = Some "ApiKey a@b.com:abc123".
Proof.
  exact (constructed_client_signs_requests (Some "a@b.com") (Some "abc123")
           (Get "hosts/") [] [answer 200 "{}"] [] (λ x, x)).
Defined.

(** Credentials given with [set_auth] replace those the client has. *)
Lemma set_auth_then_get_is_signed :
  ∃ q, wire (call (Get "hosts/")
               (API.set_auth (PyStr "c@d.com") (PyStr "xyz")
                  (fresh signed_in [answer 200 "{}"])).2).2
       = [] ++ [q]
       ∧ Request.headers q !! "Authorization" = Some "ApiKey c@d.com:xyz".
Proof.
  exact (proj2 (proj2 (proj2 (proj2
           (set_auth_then_requests_are_signed "c@d.com" "xyz" (Get "hosts/")
              (fresh signed_in [answer 200 "{}"]) (λ x, x)))))).
Defined.

(** The handshake of [a@b.com]: 487, then the code and a token. *)
Lemma second_factor_handshake :
  (API.login "a@b.com" (latin1 "secret") None
     (fresh anonymous [answer 487 "{}"; answer 200 token_body])).1
  = Raise (AuthyTokenIssue (PyMethod_json {| status_code := 487; text := "{}" |}))
  ∧ self (API.login "a@b.com" (latin1 "secret") (Some "123456")
            (API.login "a@b.com" (latin1 "secret") None
               (fresh anonymous [answer 487 "{}"; answer 200 token_body])).2).2
    = signed_in.
Proof.
  pose proof (login_retry_with_second_factor "a@b.com" "secret" "123456"
                anonymous [] []
                {| status_code := 487; text := "{}" |}
                {| status_code := 200; text := token_body |} []
                token_entries (PyStr "abc123")
                eq_refl eq_refl loads_token_body eq_refl) as Hflow.
  split; [ exact (proj1 Hflow) | exact (proj1 (proj2 (proj2 (proj2 Hflow)))) ].
Defined.

(** A header splits in one way when the identifiers have no colon. *)
Lemma header_of_plain_identifiers :
  "a@b.com" = "a@b.com" ∧ "k:1" = "k:1".
Proof.
  apply (proj1 (auth_header_and_colons "a@b.com" "k:1" "a@b.com" "k:1")).
  - apply (bool_decide_unpack _). vm_compute. exact I.
  - apply (bool_decide_unpack _). vm_compute. exact I.
  - reflexivity.
Defined.

(** The same reply gives the same outcome with and without signer. *)
Lemma same_reply_same_outcome :
  (call (Get "hosts/") (fresh anonymous [answer 200 "{}"])).1
  = (call (Get "hosts/")
       {| self := signed_in; wire := []; inbox := [answer 200 "{}"; answer 204 ""];
          journal := [(DEBUG, "send post")] |}).1.
Proof.
  exact (outcome_depends_on_reply_only (Get "hosts/")
           (fresh anonymous [answer 200 "{}"])
           {| self := signed_in; wire := []; inbox := [answer 200 "{}"; answer 204 ""];
              journal := [(DEBUG, "send post")] |} eq_refl).
Defined.

(** A login whose password has a euro sign is over before any request:
    the reply that was waiting is still there. *)
Lemma login_with_euro_sign_sends_nothing :
  API.login "a@b.com" [8364%N] None (fresh anonymous [answer 200 token_body])
  = (Raise UnicodeEncodeError, fresh anonymous [answer 200 token_body]).
Proof.
  apply (proj2 (proj2 (requests_handed_over_per_call
                         (fresh anonymous [answer 200 token_body]) "" PyNone
                         "a@b.com" [8364%N] None))).
  intros Hall. apply Forall_cons in Hall as [Hlt _]. discriminate Hlt.
Defined.
